(** * dogwalker: booking lifecycle, availability, commission and ratings

    A shallow embedding of the logic-bearing code of the marketplace app
    ([marketplace/models.py], [marketplace/serializers.py], the booking
    and pet views of [marketplace/views.py] and the management command
    that recalculates the ratings), the properties its specification
    states about it, and further properties of the code.

    Conventions of the embedding:
    - a [Decimal] is a coefficient and an exponent, as in Python's
      [decimal] module; arithmetic is exact (the context precision of 28
      significant digits is never reached by the ten-digit money columns);
    - a [datetime] is a number of microseconds since 0001-01-01T00:00:00
      (one time zone throughout); a date is a day number and a time of day
      a number of microseconds since midnight;
    - a database table whose rows are created and scanned is a list, the
      primary key of a row being its position (rows of these tables are
      never deleted by the code under study); a table that is looked up
      or updated by a unique key is a [gmap];
    - the aggregates of the ORM have their SQL meaning, the mean being
      exact;
    - a method of a model runs in a state-and-exception monad whose state
      is the in-memory instance [self], the database, and the log of the
      statements sent to it. *)

From Stdlib Require Import ZArith QArith Qabs Qpower Lia Lqa Bool.
From stdpp Require Import gmap strings list fin_maps.

Local Open Scope Z_scope.

(** ** Python's [Decimal] *)

Module Decimal.

Record t := mk { coef : Z; expo : Z }.

(** [Decimal('0.01')], [Decimal('0.00')] and 0. *)
Definition cent : t := mk 1 (-2).
Definition zero2 : t := mk 0 (-2).
Definition zero : t := mk 0 0.

(** The coefficient of [d] once it is written with exponent [e], for
    [e <= expo d]. *)
Definition scaled (d : t) (e : Z) : Z := coef d * 10 ^ (expo d - e).

Definition mul (a b : t) : t := mk (coef a * coef b) (expo a + expo b).

Definition add (a b : t) : t :=
  let e := Z.min (expo a) (expo b) in mk (scaled a e + scaled b e) e.

Definition sub (a b : t) : t :=
  let e := Z.min (expo a) (expo b) in mk (scaled a e - scaled b e) e.

Definition abs (a : t) : t := mk (Z.abs (coef a)) (expo a).

(** Comparisons are numeric: [Decimal('30.0') == Decimal('30.00')]. *)
Definition compare (a b : t) : comparison :=
  let e := Z.min (expo a) (expo b) in scaled a e ?= scaled b e.

Definition eqb (a b : t) : bool :=
  match compare a b with Eq => true | _ => false end.
Definition leb (a b : t) : bool :=
  match compare a b with Gt => false | _ => true end.
Definition ltb (a b : t) : bool :=
  match compare a b with Lt => true | _ => false end.

(** Truth value of a decimal: false exactly for zero. *)
Definition truthy (a : t) : bool := negb (coef a =? 0).

(** ROUND_HALF_EVEN, the rounding of the default context: the integer
    nearest to [n / d], a tie going to the even neighbour. *)
Definition round_half_even (n d : Z) : Z :=
  let q := n / d in
  let r := n mod d in
  if 2 * r <? d then q
  else if d <? 2 * r then q + 1
  else if Z.even q then q else q + 1.

(** [d.quantize(q)]: [d] rounded to the exponent of [q]. *)
Definition quantize (d q : t) : t :=
  let e := expo q in
  if e <=? expo d then mk (scaled d e) e
  else mk (round_half_even (coef d) (10 ^ (e - expo d))) e.

(** The value of a decimal as a rational number. *)
Definition toQ (d : t) : Q := (inject_Z (coef d) * (10 # 1) ^ expo d)%Q.

End Decimal.

Abbreviation Decimal := Decimal.t.

(** ** Dates and times *)

Abbreviation datetime := Z (only parsing).

Definition US_PER_DAY : Z := 86400000000.

(** [timezone.timedelta(minutes=n)] *)
Definition timedelta_minutes (n : Z) : Z := n * 60000000.

(** [dt.date()], [dt.time()] and [dt.weekday()] (Monday is 0, and
    0001-01-01 was a Monday). *)
Definition dt_date (dt : datetime) : Z := dt / US_PER_DAY.
Definition dt_time (dt : datetime) : Z := dt mod US_PER_DAY.
Definition dt_weekday (dt : datetime) : Z := dt_date dt mod 7.

(** ** The data model ([marketplace/models.py])

    Only the columns the logic reads or writes are kept (and the flag
    [is_recurring] of an availability, which no code reads); the
    timestamps the framework maintains are left out. A foreign key is the
    key of the row it points to. *)

Module OwnerProfile.
Record t := mk { id : Z; user : Z }.
End OwnerProfile.

Module CaregiverProfile.
Record t := mk {
  user : Z;
  rating_average : Decimal;
  rating_count : Z }.

Definition set_ratings (avg : Decimal) (count : Z) (c : t) : t :=
  mk (user c) avg count.
End CaregiverProfile.

Module Pet.
Record t := mk { owner : Z }.
End Pet.

Module ServiceType.
Record t := mk { base_duration_minutes : Z }.
End ServiceType.

Module CaregiverService.
Record t := mk { price_per_unit : Decimal; is_active : bool }.
End CaregiverService.

Module CaregiverAvailability.
Record t := mk {
  caregiver : Z;
  weekday : Z;
  start_time : Z;
  end_time : Z;
  is_recurring : bool }.
End CaregiverAvailability.

Module TimeOff.
Record t := mk { caregiver : Z; date_from : Z; date_to : Z }.
End TimeOff.

Module Booking.
Definition STATUS_PENDING : string := "pending".
Definition STATUS_ACCEPTED : string := "accepted".
Definition STATUS_REJECTED : string := "rejected".
Definition STATUS_CANCELLED : string := "cancelled".
Definition STATUS_COMPLETED : string := "completed".

Definition PAYMENT_PENDING : string := "pending".
Definition PAYMENT_PAID : string := "paid".
Definition PAYMENT_REFUNDED : string := "refunded".

Record t := mk {
  owner : Z;
  caregiver : Z;
  pet : Z;
  service_type : string;
  start_datetime : datetime;
  end_datetime : datetime;
  duration_minutes : Z;
  status : string;
  owner_notes : string;
  caregiver_notes : string;
  price_subtotal : Decimal;
  platform_fee : Decimal;
  caregiver_earnings : Decimal;
  payment_status : string }.

Definition set_status (s : string) (b : t) : t :=
  mk (owner b) (caregiver b) (pet b) (service_type b) (start_datetime b)
     (end_datetime b) (duration_minutes b) s (owner_notes b)
     (caregiver_notes b) (price_subtotal b) (platform_fee b)
     (caregiver_earnings b) (payment_status b).

Definition set_payment_status (s : string) (b : t) : t :=
  mk (owner b) (caregiver b) (pet b) (service_type b) (start_datetime b)
     (end_datetime b) (duration_minutes b) (status b) (owner_notes b)
     (caregiver_notes b) (price_subtotal b) (platform_fee b)
     (caregiver_earnings b) s.

Definition ALLOWED_TRANSITIONS : gmap string (gset string) :=
  {[ STATUS_PENDING := {[ STATUS_ACCEPTED; STATUS_REJECTED; STATUS_CANCELLED ]};
     STATUS_ACCEPTED := {[ STATUS_COMPLETED; STATUS_CANCELLED ]} ]}.
End Booking.

Module Review.
Record t := mk {
  booking : nat;
  author : Z;
  target_caregiver : option Z;
  rating : Z;
  comment : string }.
End Review.

Module TransactionLog.
Definition DIRECTION_CREDIT : string := "credit".
Definition DIRECTION_DEBIT : string := "debit".

Record t := mk {
  booking : option nat;
  user : option Z;
  direction : string;
  amount : Decimal;
  description : string }.
End TransactionLog.

(** ** The database *)

Module DB.
Record t := mk {
  (** [user.ownerprofile]: one-to-one, keyed by the user *)
  owner_profiles : gmap Z OwnerProfile.t;
  caregiver_profiles : gmap Z CaregiverProfile.t;
  pets : gmap Z Pet.t;
  (** keyed by the unique [code] *)
  service_types : gmap string ServiceType.t;
  (** [unique_together = ('caregiver', 'service_type')] *)
  caregiver_services : gmap (Z * string) CaregiverService.t;
  availabilities : list CaregiverAvailability.t;
  time_off : list TimeOff.t;
  bookings : list Booking.t;
  reviews : list Review.t;
  transaction_logs : list TransactionLog.t }.

Definition empty : t := mk ∅ ∅ ∅ ∅ ∅ [] [] [] [] [].

Definition set_caregiver_profiles (v : gmap Z CaregiverProfile.t) (d : t) : t :=
  mk (owner_profiles d) v (pets d) (service_types d) (caregiver_services d)
     (availabilities d) (time_off d) (bookings d) (reviews d)
     (transaction_logs d).

Definition set_bookings (v : list Booking.t) (d : t) : t :=
  mk (owner_profiles d) (caregiver_profiles d) (pets d) (service_types d)
     (caregiver_services d) (availabilities d) (time_off d) v (reviews d)
     (transaction_logs d).

Definition set_reviews (v : list Review.t) (d : t) : t :=
  mk (owner_profiles d) (caregiver_profiles d) (pets d) (service_types d)
     (caregiver_services d) (availabilities d) (time_off d) (bookings d) v
     (transaction_logs d).

Definition set_transaction_logs (v : list TransactionLog.t) (d : t) : t :=
  mk (owner_profiles d) (caregiver_profiles d) (pets d) (service_types d)
     (caregiver_services d) (availabilities d) (time_off d) (bookings d)
     (reviews d) v.
End DB.

(** ** Effects: exceptions, the instance in memory, the database and the
    statements sent to it *)

Inductive exn :=
| ValueError (msg : string)
| ValidationError (msg : string)
| DatabaseError (msg : string)
| DoesNotExist (model : string).

Inductive result (A : Type) :=
| Ok (a : A)
| Raise (e : exn).
Arguments Ok {A} a.
Arguments Raise {A} e.

Inductive table :=
| TOwnerProfile | TCaregiverProfile | TPet | TServiceType | TCaregiverService
| TCaregiverAvailability | TTimeOff | TBooking | TReview | TTransactionLog.

Inductive stmt :=
| SELECT (t : table)
| INSERT (t : table)
| UPDATE (t : table).

Record world (S : Type) := World {
  mem : S;              (** the instance the method runs on, [self] *)
  db : DB.t;            (** the rows *)
  log : list stmt }.    (** the statements executed so far, oldest first *)
Arguments World {S} mem db log.
Arguments mem {S} w.
Arguments db {S} w.
Arguments log {S} w.

Definition M (S A : Type) : Type := world S → result A * world S.

#[global] Instance M_ret {S} : MRet (M S) := λ A a w, (Ok a, w).

#[global] Instance M_bind {S} : MBind (M S) := λ A B f m w,
  match m w with
  | (Ok a, w') => f a w'
  | (Raise e, w') => (Raise e, w')
  end.

Definition raise {S A} (e : exn) : M S A := λ w, (Raise e, w).

Definition get_self {S} : M S S := λ w, (Ok (mem w), w).
Definition set_self {S} (s : S) : M S unit := λ w, (Ok (), World s (db w) (log w)).
Definition get_db {S} : M S DB.t := λ w, (Ok (db w), w).
Definition put_db {S} (d : DB.t) : M S unit := λ w, (Ok (), World (mem w) d (log w)).
Definition sql {S} (q : stmt) : M S unit :=
  λ w, (Ok (), World (mem w) (db w) (log w ++ [q])).

(** [@transaction.atomic]: an exception leaving the block rolls the rows
    back; the Python objects keep what was assigned to them. *)
Definition atomic {S A} (m : M S A) : M S A := λ w,
  match m w with
  | (Raise e, w') => (Raise e, World (mem w') (db w) (log w'))
  | r => r
  end.

(** [try: m except X.DoesNotExist as exc: raise ValidationError(msg)] *)
Definition or_validation_error {S A} (m : M S A) (msg : string) : M S A := λ w,
  match m w with
  | (Raise (DoesNotExist _), w') => (Raise (ValidationError msg), w')
  | r => r
  end.

(** A query set is the list of its rows; [.exists()]. *)
Definition qs_exists {A} (qs : list A) : bool :=
  match qs with [] => false | _ => true end.

(** [Model.objects.get(key)] on a table with a unique key. *)
Definition objects_get {S K A} `{Countable K}
    (t : table) (model : string) (rows : gmap K A) (k : K) : M S A :=
  sql (SELECT t);;
  match rows !! k with
  | Some r => mret r
  | None => raise (DoesNotExist model)
  end.

(** ** Utility functions ([models.py], end of file) *)

(** The lookups [field__lte=v] and [field__gte=v] read [field ≤ v] and
    [v ≤ field], [field__lt=v] and [field__gt=v] read [field < v] and
    [v < field]. Each [.exists()] is one query. The related managers
    [caregiver.availabilities], [caregiver.time_off] and
    [caregiver.bookings] select the rows of the caregiver. *)
Definition is_caregiver_available {S}
    (caregiver : Z) (start end_ : datetime) : M S bool :=
  d ← get_db;
  let weekday := dt_weekday start in
  sql (SELECT TCaregiverAvailability);;
  let time_range_ok := qs_exists (filter (λ a,
        CaregiverAvailability.caregiver a = caregiver
        ∧ CaregiverAvailability.weekday a = weekday
        ∧ CaregiverAvailability.start_time a ≤ dt_time start
        ∧ dt_time end_ ≤ CaregiverAvailability.end_time a)
      (DB.availabilities d)) in
  if negb time_range_ok then mret false
  else
    sql (SELECT TTimeOff);;
    if qs_exists (filter (λ o,
          TimeOff.caregiver o = caregiver
          ∧ TimeOff.date_from o ≤ dt_date start
          ∧ dt_date end_ ≤ TimeOff.date_to o)
        (DB.time_off d))
    then mret false
    else
      sql (SELECT TBooking);;
      let overlapping := qs_exists (filter (λ b,
            Booking.caregiver b = caregiver
            ∧ Booking.status b ∈ [Booking.STATUS_PENDING; Booking.STATUS_ACCEPTED]
            ∧ Booking.start_datetime b < end_
            ∧ start < Booking.end_datetime b)
          (DB.bookings d)) in
      mret (negb overlapping).

Section Settings.

(** [settings.PLATFORM_FEE_PERCENT]: the settings module is not part of
    the sources, its value is a parameter. *)
Variable PLATFORM_FEE_PERCENT : Decimal.

Definition compute_commission (amount : Decimal) : Decimal * Decimal :=
  let platform_fee :=
    Decimal.quantize (Decimal.mul amount PLATFORM_FEE_PERCENT) Decimal.cent in
  let caregiver_earnings := Decimal.sub amount platform_fee in
  (platform_fee, caregiver_earnings).

End Settings.

(** ** Methods of the models *)

(** [self.save(update_fields=[...])] of a booking: an UPDATE of the named
    columns of the row whose key is [pk]; Django raises when no row
    matches. *)
Definition Booking_save_update_fields
    (pk : nat) (write : Booking.t → Booking.t → Booking.t) : M Booking.t unit :=
  self ← get_self;
  d ← get_db;
  sql (UPDATE TBooking);;
  match DB.bookings d !! pk with
  | Some row => put_db (DB.set_bookings (<[pk := write self row]> (DB.bookings d)) d)
  | None => raise (DatabaseError "Save with update_fields did not affect any rows.")
  end.

(** [Booking.change_status] *)
Definition change_status (pk : nat) (new_status : string) : M Booking.t unit :=
  self ← get_self;
  let allowed := default ∅ (Booking.ALLOWED_TRANSITIONS !! Booking.status self) in
  if decide (new_status ∉ allowed) then
    raise (ValueError ("Invalid transition from " +:+ Booking.status self
                       +:+ " to " +:+ new_status))
  else
    set_self (Booking.set_status new_status self);;
    Booking_save_update_fields pk
      (λ self row, Booking.set_status (Booking.status self) row).

(** [TransactionLog.objects.create(...)] *)
Definition TransactionLog_objects_create {S} (entry : TransactionLog.t) : M S unit :=
  d ← get_db;
  sql (INSERT TTransactionLog);;
  put_db (DB.set_transaction_logs (DB.transaction_logs d ++ [entry]) d).

(** [Booking.mark_paid] *)
Definition mark_paid (pk : nat) : M Booking.t unit :=
  atomic (
    self ← get_self;
    if decide (Booking.payment_status self = Booking.PAYMENT_PAID) then mret ()
    else
      set_self (Booking.set_payment_status Booking.PAYMENT_PAID self);;
      Booking_save_update_fields pk
        (λ self row, Booking.set_payment_status (Booking.payment_status self) row);;
      self ← get_self;
      d ← get_db;
      caregiver ← objects_get TCaregiverProfile "CaregiverProfile"
                     (DB.caregiver_profiles d) (Booking.caregiver self);
      TransactionLog_objects_create
        (TransactionLog.mk (Some pk) (Some (CaregiverProfile.user caregiver))
           TransactionLog.DIRECTION_CREDIT (Booking.caregiver_earnings self)
           "Booking payout")).

(** Sum of a column. *)
Definition Sum (xs : list Z) : Z := foldr Z.add 0 xs.

(** [Avg('rating')]: NULL on no row, else the mean, kept exact (the
    backend's numeric type is not modelled). *)
Definition Avg (xs : list Z) : option Q :=
  match xs with
  | [] => None
  | _ => Some (Sum xs # Pos.of_nat (length xs))%Q
  end.

Definition Count {A} (xs : list A) : Z := Z.of_nat (length xs).

Definition Coalesce {A} (o : option A) (d : A) : A := default d o.

(** [Decimal(x).quantize(q)] for a number [x] read from the database, for
    [q] with no positive exponent. *)
Definition Decimal_quantize_Q (x : Q) (q : Decimal) : Decimal :=
  Decimal.mk
    (Decimal.round_half_even (Qnum x * 10 ^ (- Decimal.expo q)) (Zpos (Qden x)))
    (Decimal.expo q).

(** [CaregiverProfile.recalc_ratings]; [self] is given by its key. *)
Definition recalc_ratings {S} (self : Z) : M S unit :=
  atomic (
    d ← get_db;
    sql (SELECT TReview);;
    let ratings :=
      Review.rating <$>
        filter (λ r, Review.target_caregiver r = Some self) (DB.reviews d) in
    let avg := Coalesce (Avg ratings) 0%Q in
    let count := Coalesce (Some (Count ratings)) 0 in
    let rating_average :=
      if negb (Qnum avg =? 0) then Decimal_quantize_Q avg Decimal.cent
      else Decimal.zero2 in
    let rating_count := count in
    sql (UPDATE TCaregiverProfile);;
    match DB.caregiver_profiles d !! self with
    | Some row =>
        put_db (DB.set_caregiver_profiles
                  (<[self := CaregiverProfile.set_ratings rating_average rating_count row]>
                     (DB.caregiver_profiles d)) d)
    | None => raise (DatabaseError "Save with update_fields did not affect any rows.")
    end).

(** [instance._state]: a new instance is being added, a loaded one has
    its row. *)
Inductive model_state :=
| Adding
| Persisted (pk : nat).

(** [models.Model.save] of a review: INSERT when the instance is new, else
    UPDATE of its row (and INSERT when the row is gone). The key of the row
    is returned. *)
Definition Model_save_review {S} (state : model_state) (self : Review.t) : M S nat :=
  d ← get_db;
  match state with
  | Persisted pk =>
      sql (UPDATE TReview);;
      if decide (pk < length (DB.reviews d))%nat then
        put_db (DB.set_reviews (<[pk := self]> (DB.reviews d)) d);;
        mret pk
      else
        sql (INSERT TReview);;
        put_db (DB.set_reviews (DB.reviews d ++ [self]) d);;
        mret (length (DB.reviews d))
  | Adding =>
      sql (INSERT TReview);;
      put_db (DB.set_reviews (DB.reviews d ++ [self]) d);;
      mret (length (DB.reviews d))
  end.

(** [Review.save] *)
Definition Review_save {S} (state : model_state) (self : Review.t) : M S nat :=
  let is_new := match state with Adding => true | Persisted _ => false end in
  pk ← Model_save_review state self;
  match is_new, Review.target_caregiver self with
  | true, Some target_caregiver => recalc_ratings target_caregiver;; mret pk
  | _, _ => mret pk
  end.

(** ** Serializers ([marketplace/serializers.py]) *)

(** [related.get(key, cond)]: the row with that key when it satisfies the
    other conditions of the lookup. *)
Definition objects_get_where {S K A} `{Countable K}
    (t : table) (model : string) (rows : gmap K A) (k : K)
    (cond : A → Prop) `{∀ r, Decision (cond r)} : M S A :=
  r ← objects_get t model rows k;
  if decide (cond r) then mret r else raise (DoesNotExist model).

Module BookingCreateSerializer.
(** The fields of the request, once parsed. *)
Record attrs := Attrs {
  pet_id : Z;
  caregiver_id : Z;
  service_type_code : string;
  start_datetime : datetime;
  duration_minutes : Z;
  owner_notes : option string }.

(** What [validate] adds to them. *)
Record validated := Validated {
  data : attrs;
  owner : Z;
  pet : Z;
  caregiver : Z;
  service_type : string;
  end_datetime : datetime;
  price_subtotal : Decimal;
  platform_fee : Decimal;
  caregiver_earnings : Decimal }.
End BookingCreateSerializer.

Module ReviewSerializer.
(** The writable fields of the request. *)
Record data := Data {
  booking_pk : nat;
  rating_in : Z;
  comment_in : string }.

(** The fields after their own validation: the booking is the instance. *)
Record attrs := Attrs {
  booking : nat * Booking.t;
  rating : Z;
  comment : string }.

Record validated := Validated {
  fields : attrs;
  target_caregiver : Z }.
End ReviewSerializer.

Section Serializers.

Variable PLATFORM_FEE_PERCENT : Decimal.

(** The request: [timezone.now()] when it is handled, and its user. *)
Variable now : datetime.
Variable user : Z.

Context {S : Type}.

Definition BookingCreateSerializer_validate
    (attrs : BookingCreateSerializer.attrs) : M S BookingCreateSerializer.validated :=
  d ← get_db;
  owner ← or_validation_error
    (objects_get TOwnerProfile "OwnerProfile" (DB.owner_profiles d) user)
    "Only owners can create bookings";
  pet ← or_validation_error
    (objects_get_where TPet "Pet" (DB.pets d)
       (BookingCreateSerializer.pet_id attrs)
       (λ p, Pet.owner p = OwnerProfile.id owner))
    "Pet not found";
  caregiver ← or_validation_error
    (objects_get TCaregiverProfile "CaregiverProfile" (DB.caregiver_profiles d)
       (BookingCreateSerializer.caregiver_id attrs))
    "Caregiver not found";
  service_type ← or_validation_error
    (objects_get TServiceType "ServiceType" (DB.service_types d)
       (BookingCreateSerializer.service_type_code attrs))
    "Service type not found";
  caregiver_service ← or_validation_error
    (objects_get_where TCaregiverService "CaregiverService" (DB.caregiver_services d)
       (BookingCreateSerializer.caregiver_id attrs,
        BookingCreateSerializer.service_type_code attrs)
       (λ cs, CaregiverService.is_active cs = true))
    "Caregiver does not offer this service";
  let start := BookingCreateSerializer.start_datetime attrs in
  let duration := BookingCreateSerializer.duration_minutes attrs in
  let end_ := start + timedelta_minutes duration in
  if decide (start < now) then
    raise (ValidationError "Start time must be in the future")
  else if decide (duration > ServiceType.base_duration_minutes service_type * 4) then
    raise (ValidationError "Duration exceeds allowed maximum for service type")
  else
    available ← is_caregiver_available
                   (BookingCreateSerializer.caregiver_id attrs) start end_;
    if negb available then
      raise (ValidationError "Caregiver is not available for the selected time")
    else
      let '(platform_fee, caregiver_earnings) :=
        compute_commission PLATFORM_FEE_PERCENT
          (CaregiverService.price_per_unit caregiver_service) in
      mret (BookingCreateSerializer.Validated attrs
              (OwnerProfile.id owner)
              (BookingCreateSerializer.pet_id attrs)
              (BookingCreateSerializer.caregiver_id attrs)
              (BookingCreateSerializer.service_type_code attrs)
              end_
              (CaregiverService.price_per_unit caregiver_service)
              platform_fee
              caregiver_earnings).

(** [BookingCreateSerializer.create]: the three write-only keys are
    dropped and [Booking.objects.create] inserts the row, the columns
    not given taking their defaults. *)
Definition BookingCreateSerializer_create
    (validated_data : BookingCreateSerializer.validated) : M S (nat * Booking.t) :=
  d ← get_db;
  let attrs := BookingCreateSerializer.data validated_data in
  let instance :=
    Booking.mk
      (BookingCreateSerializer.owner validated_data)
      (BookingCreateSerializer.caregiver validated_data)
      (BookingCreateSerializer.pet validated_data)
      (BookingCreateSerializer.service_type validated_data)
      (BookingCreateSerializer.start_datetime attrs)
      (BookingCreateSerializer.end_datetime validated_data)
      (BookingCreateSerializer.duration_minutes attrs)
      Booking.STATUS_PENDING
      (default "" (BookingCreateSerializer.owner_notes attrs))
      ""
      (BookingCreateSerializer.price_subtotal validated_data)
      (BookingCreateSerializer.platform_fee validated_data)
      (BookingCreateSerializer.caregiver_earnings validated_data)
      Booking.PAYMENT_PENDING in
  sql (INSERT TBooking);;
  put_db (DB.set_bookings (DB.bookings d ++ [instance]) d);;
  mret (length (DB.bookings d), instance).

(** Creation of a booking through the API ([BookingViewSet], action
    [create]): validation, then [create] on the validated data. *)
Definition create_booking
    (attrs : BookingCreateSerializer.attrs) : M S (nat * Booking.t) :=
  validated_data ← BookingCreateSerializer_validate attrs;
  BookingCreateSerializer_create validated_data.

(** Validation of the fields of a review, before [validate]: the key of
    the booking is resolved to its row, the rating is checked against the
    validators of the column (1 to 5). *)
Definition ReviewSerializer_to_internal_value
    (data : ReviewSerializer.data) : M S ReviewSerializer.attrs :=
  d ← get_db;
  sql (SELECT TBooking);;
  match DB.bookings d !! ReviewSerializer.booking_pk data with
  | None => raise (ValidationError "Invalid pk - object does not exist.")
  | Some booking =>
      if decide (ReviewSerializer.rating_in data < 1) then
        raise (ValidationError "Ensure this value is greater than or equal to 1.")
      else if decide (ReviewSerializer.rating_in data > 5) then
        raise (ValidationError "Ensure this value is less than or equal to 5.")
      else
        mret (ReviewSerializer.Attrs
                (ReviewSerializer.booking_pk data, booking)
                (ReviewSerializer.rating_in data)
                (ReviewSerializer.comment_in data))
  end.

Definition ReviewSerializer_validate
    (attrs : ReviewSerializer.attrs) : M S ReviewSerializer.validated :=
  let '(booking_pk, booking) := ReviewSerializer.booking attrs in
  if decide (Booking.status booking ≠ Booking.STATUS_COMPLETED) then
    raise (ValidationError "Reviews are only allowed for completed bookings")
  else
    d ← get_db;
    sql (SELECT TReview);;
    (* hasattr(booking, 'review') *)
    if qs_exists (filter (λ r, Review.booking r = booking_pk) (DB.reviews d)) then
      raise (ValidationError "A review already exists for this booking")
    else
      mret (ReviewSerializer.Validated attrs (Booking.caregiver booking)).

Definition ReviewSerializer_create
    (validated_data : ReviewSerializer.validated) : M S (nat * Review.t) :=
  let attrs := ReviewSerializer.fields validated_data in
  let instance :=
    Review.mk
      (fst (ReviewSerializer.booking attrs))
      user
      (Some (ReviewSerializer.target_caregiver validated_data))
      (ReviewSerializer.rating attrs)
      (ReviewSerializer.comment attrs) in
  pk ← Review_save Adding instance;
  mret (pk, instance).

(** Creation of a review through the API ([ReviewViewSet], action
    [create]). *)
Definition create_review (data : ReviewSerializer.data) : M S (nat * Review.t) :=
  attrs ← ReviewSerializer_to_internal_value data;
  validated_data ← ReviewSerializer_validate attrs;
  ReviewSerializer_create validated_data.

End Serializers.

(** ** Running the code *)

(** A method run on the instance [self] against the rows [d], from an
    empty statement log. *)
Definition run {S A} (m : M S A) (self : S) (d : DB.t) : result A * world S :=
  m (World self d []).

(** The operations of the core, as a client can issue them. A method of a
    booking is given the key of the row and the instance in memory, which
    need not agree with the row. *)
Inductive op :=
| OpCreateBooking (now : datetime) (user : Z) (attrs : BookingCreateSerializer.attrs)
| OpChangeStatus (pk : nat) (self : Booking.t) (new_status : string)
| OpMarkPaid (pk : nat) (self : Booking.t)
| OpCreateReview (user : Z) (data : ReviewSerializer.data).

Section Steps.

Variable PLATFORM_FEE_PERCENT : Decimal.

Definition run_op (o : op) (d : DB.t) : DB.t :=
  match o with
  | OpCreateBooking now user attrs =>
      db (run (create_booking PLATFORM_FEE_PERCENT now user attrs) () d).2
  | OpChangeStatus pk self new_status =>
      db (run (change_status pk new_status) self d).2
  | OpMarkPaid pk self =>
      db (run (mark_paid pk) self d).2
  | OpCreateReview user data =>
      db (run (create_review user data) () d).2
  end.

Definition run_ops (os : list op) (d : DB.t) : DB.t :=
  foldl (λ d o, run_op o d) d os.

End Steps.


(** ** The specification's side *)

(** The transition table of the state machine. *)
Definition allowed_transition (from to : string) : Prop :=
  (from = "pending" ∧ (to = "accepted" ∨ to = "rejected" ∨ to = "cancelled"))
  ∨ (from = "accepted" ∧ (to = "completed" ∨ to = "cancelled")).


(** The three checks of the availability resolver. *)
Definition weekly_window_ok (d : DB.t) (caregiver : Z) (start end_ : datetime) : Prop :=
  ∃ a, a ∈ DB.availabilities d
    ∧ CaregiverAvailability.caregiver a = caregiver
    ∧ CaregiverAvailability.weekday a = dt_weekday start
    ∧ CaregiverAvailability.start_time a ≤ dt_time start
    ∧ dt_time end_ ≤ CaregiverAvailability.end_time a.

Definition on_time_off (d : DB.t) (caregiver : Z) (start end_ : datetime) : Prop :=
  ∃ o, o ∈ DB.time_off d
    ∧ TimeOff.caregiver o = caregiver
    ∧ TimeOff.date_from o ≤ dt_date start
    ∧ dt_date end_ ≤ TimeOff.date_to o.

Definition overlaps_booking (d : DB.t) (caregiver : Z) (start end_ : datetime) : Prop :=
  ∃ b, b ∈ DB.bookings d
    ∧ Booking.caregiver b = caregiver
    ∧ (Booking.status b = "pending" ∨ Booking.status b = "accepted")
    ∧ Booking.start_datetime b < end_
    ∧ start < Booking.end_datetime b.

(** The ratings of the reviews that target a caregiver. *)
Definition ratings_of (d : DB.t) (caregiver : Z) : list Z :=
  Review.rating <$>
    filter (λ r, Review.target_caregiver r = Some caregiver) (DB.reviews d).



(** The money columns of a booking add up. *)
Definition money_adds_up (b : Booking.t) : Prop :=
  Decimal.eqb (Booking.price_subtotal b)
    (Decimal.add (Booking.platform_fee b) (Booking.caregiver_earnings b)) = true.

Definition money_columns (b : Booking.t) : Decimal * Decimal * Decimal :=
  (Booking.price_subtotal b, Booking.platform_fee b, Booking.caregiver_earnings b).

(** ** Definitions used to state the properties *)

(** The error of an illegal transition: a [ValueError] whose message names
    the two statuses. *)
Definition InvalidTransition (from to : string) : exn :=
  ValueError ("Invalid transition from " +:+ from +:+ " to " +:+ to).

(** The answers of the three queries of [is_caregiver_available]. *)
Definition check_window (d : DB.t) (caregiver : Z) (start end_ : datetime) : bool :=
  qs_exists (filter (λ a,
      CaregiverAvailability.caregiver a = caregiver
      ∧ CaregiverAvailability.weekday a = dt_weekday start
      ∧ CaregiverAvailability.start_time a ≤ dt_time start
      ∧ dt_time end_ ≤ CaregiverAvailability.end_time a)
    (DB.availabilities d)).

Definition check_time_off (d : DB.t) (caregiver : Z) (start end_ : datetime) : bool :=
  qs_exists (filter (λ o,
      TimeOff.caregiver o = caregiver
      ∧ TimeOff.date_from o ≤ dt_date start
      ∧ dt_date end_ ≤ TimeOff.date_to o)
    (DB.time_off d)).

Definition check_overlap (d : DB.t) (caregiver : Z) (start end_ : datetime) : bool :=
  qs_exists (filter (λ b,
      Booking.caregiver b = caregiver
      ∧ Booking.status b ∈ [Booking.STATUS_PENDING; Booking.STATUS_ACCEPTED]
      ∧ Booking.start_datetime b < end_
      ∧ start < Booking.end_datetime b)
    (DB.bookings d)).

(** The ledger entry [mark_paid] writes for the booking [pk] held in
    memory as [self], the caregiver's row being [c]. *)
Definition payout_entry (pk : nat) (self : Booking.t) (c : CaregiverProfile.t)
    : TransactionLog.t :=
  TransactionLog.mk (Some pk) (Some (CaregiverProfile.user c))
    TransactionLog.DIRECTION_CREDIT (Booking.caregiver_earnings self)
    "Booking payout".

(** The value [recalc_ratings] assigns to [rating_average], as a function
    of the ratings it read. *)
Definition computed_average (ratings : list Z) : Decimal :=
  let avg := Coalesce (Avg ratings) 0%Q in
  if negb (Qnum avg =? 0) then Decimal_quantize_Q avg Decimal.cent
  else Decimal.zero2.

(** A review exists for the booking [pk]. *)
Definition has_review (d : DB.t) (pk : nat) : Prop :=
  ∃ r, r ∈ DB.reviews d ∧ Review.booking r = pk.

(** A statement log without writes. *)
Definition reads_only (l : list stmt) : Prop :=
  ∀ q, q ∈ l → ∃ t, q = SELECT t.

(** The review a successful creation stores. *)
Definition review_of (user : Z) (data : ReviewSerializer.data) (booking : Booking.t)
  : Review.t :=
  Review.mk (ReviewSerializer.booking_pk data) user (Some (Booking.caregiver booking))
    (ReviewSerializer.rating_in data) (ReviewSerializer.comment_in data).

(** The conditions under which a booking is accepted, with the rows they
    find. *)
Record request_ok (now : datetime) (user : Z) (attrs : BookingCreateSerializer.attrs)
    (d : DB.t) (owner : OwnerProfile.t) (pet : Pet.t) (caregiver : CaregiverProfile.t)
    (service_type : ServiceType.t) (caregiver_service : CaregiverService.t) : Prop := {
  ok_owner : DB.owner_profiles d !! user = Some owner;
  ok_pet : DB.pets d !! BookingCreateSerializer.pet_id attrs = Some pet;
  ok_pet_owner : Pet.owner pet = OwnerProfile.id owner;
  ok_caregiver :
    DB.caregiver_profiles d !! BookingCreateSerializer.caregiver_id attrs = Some caregiver;
  ok_service_type :
    DB.service_types d !! BookingCreateSerializer.service_type_code attrs = Some service_type;
  ok_offering :
    DB.caregiver_services d !! (BookingCreateSerializer.caregiver_id attrs,
                                BookingCreateSerializer.service_type_code attrs)
      = Some caregiver_service;
  ok_active : CaregiverService.is_active caregiver_service = true;
  ok_start : now ≤ BookingCreateSerializer.start_datetime attrs;
  ok_duration :
    BookingCreateSerializer.duration_minutes attrs
      ≤ 4 * ServiceType.base_duration_minutes service_type;
  ok_available :
    let start := BookingCreateSerializer.start_datetime attrs in
    let end_ := start + timedelta_minutes (BookingCreateSerializer.duration_minutes attrs) in
    let caregiver := BookingCreateSerializer.caregiver_id attrs in
    weekly_window_ok d caregiver start end_
    ∧ ¬ on_time_off d caregiver start end_
    ∧ ¬ overlaps_booking d caregiver start end_ }.

(** The row a successful creation inserts. *)
Definition created_booking (PLATFORM_FEE_PERCENT : Decimal)
    (attrs : BookingCreateSerializer.attrs)
    (owner : OwnerProfile.t) (caregiver_service : CaregiverService.t) : Booking.t :=
  let price := CaregiverService.price_per_unit caregiver_service in
  let split := compute_commission PLATFORM_FEE_PERCENT price in
  Booking.mk
    (OwnerProfile.id owner)
    (BookingCreateSerializer.caregiver_id attrs)
    (BookingCreateSerializer.pet_id attrs)
    (BookingCreateSerializer.service_type_code attrs)
    (BookingCreateSerializer.start_datetime attrs)
    (BookingCreateSerializer.start_datetime attrs
       + timedelta_minutes (BookingCreateSerializer.duration_minutes attrs))
    (BookingCreateSerializer.duration_minutes attrs)
    "pending"
    (default "" (BookingCreateSerializer.owner_notes attrs))
    ""
    price split.1 split.2
    "pending".

Definition is_validation_error {A} (r : result A) : Prop :=
  ∃ msg, r = Raise (ValidationError msg).

(** From one list of bookings to a later one: the rows there stay, with
    their money columns, and the rows added add up. *)
Definition money_kept (l l' : list Booking.t) : Prop :=
  (∀ i b, l !! i = Some b →
     ∃ b', l' !! i = Some b' ∧ money_columns b' = money_columns b)
  ∧ (∀ i b', l' !! i = Some b' →
       (∃ b, l !! i = Some b ∧ money_columns b' = money_columns b)
       ∨ money_adds_up b').



(** ** A small marketplace, for the worked examples *)

Module Sample.
(** A fee rate of 15 percent. *)
Definition fee : Decimal := Decimal.mk 15 (-2).

Definition hour : Z := 3600000000.

(** A Monday: a day number that is a multiple of 7. *)
Definition monday : Z := 739200.

Definition at_ (day hours : Z) : datetime := day * US_PER_DAY + hours * hour.

(** A pending booking of caregiver 7, Monday from 10:00 to 11:00. *)
Definition booking : Booking.t :=
  Booking.mk 100 7 5 "dog_walk" (at_ monday 10) (at_ monday 11) 60
    "pending" "" "" (Decimal.mk 3000 (-2)) (Decimal.mk 450 (-2))
    (Decimal.mk 2550 (-2)) "pending".

(** Owner 100 (user 1) with pet 5; caregiver 7 (user 70), who walks dogs
    for 30.00, is available on Mondays from 08:00 to 20:00 and is off
    on the following Monday. *)
Definition database : DB.t :=
  DB.mk
    {[ 1 := OwnerProfile.mk 100 1 ]}
    {[ 7 := CaregiverProfile.mk 70 Decimal.zero2 0 ]}
    {[ 5 := Pet.mk 100 ]}
    {[ "dog_walk" := ServiceType.mk 60 ]}
    {[ (7, "dog_walk") := CaregiverService.mk (Decimal.mk 3000 (-2)) true ]}
    [CaregiverAvailability.mk 7 0 (8 * hour) (20 * hour) true]
    [TimeOff.mk 7 (monday + 7) (monday + 7)]
    [booking] [] [].

Definition now : datetime := at_ monday 8.

(** A request for the same Monday, from 14:00 to 15:00. *)
Definition request : BookingCreateSerializer.attrs :=
  BookingCreateSerializer.Attrs 5 7 "dog_walk" (at_ monday 14) 60 (Some "side gate").


Definition operations : list op :=
  [OpCreateBooking now 1 request;
   OpChangeStatus 0 booking "accepted";
   OpMarkPaid 0 booking;
   OpChangeStatus 0 (Booking.set_status "accepted" booking) "completed";
   OpCreateReview 1 (ReviewSerializer.Data 0 5 "a happy dog")].
End Sample.

(** ** Views ([marketplace/views.py]) *)

(** A method of another instance, called from the code that runs: the
    method runs on that instance, the caller keeps its own; the instance
    as the method left it comes back with the result. *)
Definition call {S S' A} (obj : S') (m : M S' A) : M S (A * S') := λ w,
  match m (World obj (db w) (log w)) with
  | (Ok a, w') => (Ok (a, mem w'), World (mem w) (db w') (log w'))
  | (Raise e, w') => (Raise e, World (mem w) (db w') (log w'))
  end.

Module Request.
(** The user of the request and the query parameters [as] and [status]. *)
Record t := mk {
  user : Z;
  query_as : option string;
  query_status : option string }.
End Request.

(** The answers of the booking actions; [HTTP_200_OK s] carries
    [{'status': s}]. A missing object is answered 404 by the framework. *)
Inductive response :=
| HTTP_200_OK (status : string)
| HTTP_403_FORBIDDEN
| HTTP_404_NOT_FOUND.

(** The owner profile with a given primary key. *)
Definition OwnerProfile_by_pk (d : DB.t) (pk : Z) : option OwnerProfile.t :=
  head (filter (λ p, OwnerProfile.id p = pk) (map_to_list (DB.owner_profiles d)).*2).

(** A booking as the query set of the view loads it: with its key and,
    through [select_related], its owner and its caregiver. *)
Module Loaded.
Record t := mk {
  pk : nat;
  row : Booking.t;
  owner : OwnerProfile.t;
  caregiver : CaregiverProfile.t }.
End Loaded.

(** [Booking.objects.select_related('owner', 'caregiver', 'pet',
    'service_type')]: the bookings joined with the four rows they point
    to (inner joins, the foreign keys not being nullable). *)
Definition select_related (d : DB.t) (pk : nat) (b : Booking.t) : option Loaded.t :=
  owner ← OwnerProfile_by_pk d (Booking.owner b);
  caregiver ← DB.caregiver_profiles d !! Booking.caregiver b;
  _ ← DB.pets d !! Booking.pet b;
  _ ← DB.service_types d !! Booking.service_type b;
  Some (Loaded.mk pk b owner caregiver).

Definition BookingViewSet_queryset (d : DB.t) : list Loaded.t :=
  omap id (imap (select_related d) (DB.bookings d)).

(** [BookingViewSet.get_queryset] *)
Definition BookingViewSet_get_queryset (request : Request.t) (d : DB.t) : list Loaded.t :=
  let qs := BookingViewSet_queryset d in
  let as_caregiver := bool_decide (Request.query_as request = Some "caregiver") in
  let qs :=
    if as_caregiver then
      filter (λ b, CaregiverProfile.user (Loaded.caregiver b) = Request.user request) qs
    else
      filter (λ b, OwnerProfile.user (Loaded.owner b) = Request.user request) qs in
  let status_filter := Request.query_status request in
  match status_filter with
  | Some s =>
      if decide (s ≠ "") then filter (λ b, Booking.status (Loaded.row b) = s) qs else qs
  | None => qs
  end.

(** [self.get_object()]: the booking of the query set with the key of the
    URL, if any. *)
Definition BookingViewSet_get_object {S} (request : Request.t) (pk : nat)
    : M S (option Loaded.t) :=
  d ← get_db;
  sql (SELECT TBooking);;
  mret (head (filter (λ b, Loaded.pk b = pk) (BookingViewSet_get_queryset request d))).

(** [BookingViewSet.accept] *)
Definition BookingViewSet_accept {S} (request : Request.t) (pk : nat) : M S response :=
  found ← BookingViewSet_get_object request pk;
  match found with
  | None => mret HTTP_404_NOT_FOUND
  | Some booking =>
      if decide (CaregiverProfile.user (Loaded.caregiver booking) ≠ Request.user request)
      then mret HTTP_403_FORBIDDEN
      else
        '(_, instance) ← call (Loaded.row booking)
                           (change_status (Loaded.pk booking) Booking.STATUS_ACCEPTED);
        mret (HTTP_200_OK (Booking.status instance))
  end.

(** [BookingViewSet.reject] *)
Definition BookingViewSet_reject {S} (request : Request.t) (pk : nat) : M S response :=
  found ← BookingViewSet_get_object request pk;
  match found with
  | None => mret HTTP_404_NOT_FOUND
  | Some booking =>
      if decide (CaregiverProfile.user (Loaded.caregiver booking) ≠ Request.user request)
      then mret HTTP_403_FORBIDDEN
      else
        '(_, instance) ← call (Loaded.row booking)
                           (change_status (Loaded.pk booking) Booking.STATUS_REJECTED);
        mret (HTTP_200_OK (Booking.status instance))
  end.

(** [BookingViewSet.cancel] *)
Definition BookingViewSet_cancel {S} (request : Request.t) (pk : nat) : M S response :=
  found ← BookingViewSet_get_object request pk;
  match found with
  | None => mret HTTP_404_NOT_FOUND
  | Some booking =>
      if decide (Request.user request ∉ [OwnerProfile.user (Loaded.owner booking);
                                         CaregiverProfile.user (Loaded.caregiver booking)])
      then mret HTTP_403_FORBIDDEN
      else
        '(_, instance) ← call (Loaded.row booking)
                           (change_status (Loaded.pk booking) Booking.STATUS_CANCELLED);
        mret (HTTP_200_OK (Booking.status instance))
  end.

(** [BookingViewSet.complete] *)
Definition BookingViewSet_complete {S} (request : Request.t) (pk : nat) : M S response :=
  found ← BookingViewSet_get_object request pk;
  match found with
  | None => mret HTTP_404_NOT_FOUND
  | Some booking =>
      if decide (CaregiverProfile.user (Loaded.caregiver booking) ≠ Request.user request)
      then mret HTTP_403_FORBIDDEN
      else
        '(_, instance) ← call (Loaded.row booking)
                           (change_status (Loaded.pk booking) Booking.STATUS_COMPLETED);
        mret (HTTP_200_OK (Booking.status instance))
  end.

(** The booking with key [pk] as [request] sees it, if it does: the row
    joined with its related rows, when it passes the filters of
    [get_queryset]. *)
Definition visible (request : Request.t) (d : DB.t) (pk : nat) : option Loaded.t :=
  b ← DB.bookings d !! pk;
  x ← select_related d pk b;
  let as_caregiver := bool_decide (Request.query_as request = Some "caregiver") in
  if (if as_caregiver
      then bool_decide (CaregiverProfile.user (Loaded.caregiver x) = Request.user request)
      else bool_decide (OwnerProfile.user (Loaded.owner x) = Request.user request))
     && match Request.query_status request with
        | Some s => bool_decide (s = "") || bool_decide (Booking.status (Loaded.row x) = s)
        | None => true
        end
  then Some x else None.

(** The requests whose handling is written in the repository and which
    write to the tables of the core: the creation of a booking, the four
    booking actions and the creation of a review. (The generic update and
    delete routes that the framework adds to a [ModelViewSet] are not
    among them.) *)
Inductive api :=
| ApiCreateBooking (now : datetime) (user : Z) (attrs : BookingCreateSerializer.attrs)
| ApiAccept (request : Request.t) (pk : nat)
| ApiReject (request : Request.t) (pk : nat)
| ApiCancel (request : Request.t) (pk : nat)
| ApiComplete (request : Request.t) (pk : nat)
| ApiCreateReview (user : Z) (data : ReviewSerializer.data).

Definition api_step (PLATFORM_FEE_PERCENT : Decimal) (a : api) (d : DB.t) : DB.t :=
  match a with
  | ApiCreateBooking now user attrs =>
      db (run (create_booking PLATFORM_FEE_PERCENT now user attrs) () d).2
  | ApiAccept request pk => db (run (BookingViewSet_accept request pk) () d).2
  | ApiReject request pk => db (run (BookingViewSet_reject request pk) () d).2
  | ApiCancel request pk => db (run (BookingViewSet_cancel request pk) () d).2
  | ApiComplete request pk => db (run (BookingViewSet_complete request pk) () d).2
  | ApiCreateReview user data => db (run (create_review user data) () d).2
  end.

Definition api_run (PLATFORM_FEE_PERCENT : Decimal) (l : list api) (d : DB.t) : DB.t :=
  foldl (λ d a, api_step PLATFORM_FEE_PERCENT a d) d l.

(** A booking that holds its time slot. *)
Definition active (b : Booking.t) : Prop :=
  Booking.status b = "pending" ∨ Booking.status b = "accepted".

(** A status from which no transition leaves. *)
Definition terminal (s : string) : Prop := ∀ to, ¬ allowed_transition s to.

(** No two active bookings of one caregiver overlap. *)
Definition no_overlap (d : DB.t) : Prop :=
  ∀ i j bi bj, i ≠ j →
    DB.bookings d !! i = Some bi → DB.bookings d !! j = Some bj →
    Booking.caregiver bi = Booking.caregiver bj → active bi → active bj →
    ¬ (Booking.start_datetime bi < Booking.end_datetime bj
       ∧ Booking.start_datetime bj < Booking.end_datetime bi).

(** The columns of a booking other than the two statuses. *)
Definition fixed_columns (b : Booking.t) :=
  (Booking.owner b, Booking.caregiver b, Booking.pet b, Booking.service_type b,
   Booking.start_datetime b, Booking.end_datetime b, Booking.duration_minutes b,
   Booking.owner_notes b, Booking.caregiver_notes b,
   Booking.price_subtotal b, Booking.platform_fee b, Booking.caregiver_earnings b).

(** One step, or none, along the transition table. *)
Definition moved (s s' : string) : Prop := s' = s ∨ allowed_transition s s'.

(** From one list of bookings to a later one: the rows stay, each with
    its fixed columns and a status reached along the table. *)
Definition lifecycle_kept (l l' : list Booking.t) : Prop :=
  ∀ i b, l !! i = Some b →
    ∃ b', l' !! i = Some b'
          ∧ fixed_columns b' = fixed_columns b
          ∧ rtc allowed_transition (Booking.status b) (Booking.status b').

(** Who may accept, reject or complete, and who may cancel. *)
Definition is_caregiver_of (request : Request.t) (x : Loaded.t) : Prop :=
  CaregiverProfile.user (Loaded.caregiver x) = Request.user request.

Definition is_party_of (request : Request.t) (x : Loaded.t) : Prop :=
  Request.user request = OwnerProfile.user (Loaded.owner x)
  ∨ Request.user request = CaregiverProfile.user (Loaded.caregiver x).

#[global] Instance is_caregiver_of_dec request x : Decision (is_caregiver_of request x) :=
  ltac:(unfold is_caregiver_of; apply _).

#[global] Instance is_party_of_dec request x : Decision (is_party_of request x) :=
  ltac:(unfold is_party_of; apply _).

(** What a booking action does, given who may perform it and the status
    it asks for. *)
Definition action_outcome {S} (may : Loaded.t → Prop) `{∀ x, Decision (may x)}
    (target : string) (request : Request.t) (pk : nat) (w : world S)
    : result response * world S :=
  let l := log w ++ [SELECT TBooking] in
  match visible request (db w) pk with
  | None => (Ok HTTP_404_NOT_FOUND, World (mem w) (db w) l)
  | Some x =>
      if decide (may x) then
        if decide (target ∈ default ∅ (Booking.ALLOWED_TRANSITIONS
                                          !! Booking.status (Loaded.row x)))
        then (Ok (HTTP_200_OK target),
              World (mem w)
                (DB.set_bookings
                   (<[pk := Booking.set_status target (Loaded.row x)]>
                      (DB.bookings (db w))) (db w))
                (l ++ [UPDATE TBooking]))
        else (Raise (InvalidTransition (Booking.status (Loaded.row x)) target),
              World (mem w) (db w) l)
      else (Ok HTTP_403_FORBIDDEN, World (mem w) (db w) l)
  end.


(** How one of these requests changes the bookings: not at all, or the
    status of one row by one step of the table, or by one new pending row
    that overlaps no active booking of its caregiver. *)
Definition bookings_step (d d' : DB.t) : Prop :=
  DB.bookings d' = DB.bookings d
  ∨ (∃ pk row target,
       DB.bookings d !! pk = Some row
       ∧ allowed_transition (Booking.status row) target
       ∧ DB.bookings d' = <[pk := Booking.set_status target row]> (DB.bookings d))
  ∨ (∃ b,
       DB.bookings d' = DB.bookings d ++ [b]
       ∧ Booking.status b = "pending"
       ∧ Booking.payment_status b = "pending"
       ∧ ¬ overlaps_booking d (Booking.caregiver b)
             (Booking.start_datetime b) (Booking.end_datetime b)).

(** How it changes the reviews: not at all, or by one review of a
    completed booking that had none, targeting the caregiver of the
    booking. *)
Definition reviews_step (d d' : DB.t) : Prop :=
  DB.reviews d' = DB.reviews d
  ∨ (∃ r b,
       DB.reviews d' = DB.reviews d ++ [r]
       ∧ DB.bookings d !! Review.booking r = Some b
       ∧ Booking.status b = "completed"
       ∧ ¬ has_review d (Review.booking r)
       ∧ Review.target_caregiver r = Some (Booking.caregiver b)).

(** Every review is the only one of its booking, which is completed and
    whose caregiver it targets. *)
Definition reviews_sound (d : DB.t) : Prop :=
  NoDup (Review.booking <$> DB.reviews d)
  ∧ ∀ r, r ∈ DB.reviews d →
      ∃ b, DB.bookings d !! Review.booking r = Some b
           ∧ Booking.status b = "completed"
           ∧ Review.target_caregiver r = Some (Booking.caregiver b).

(** ** The management command
    ([management/commands/recalc_caregiver_ratings.py]) *)





(** ** Definitions used to state the properties of the ledger *)

Definition is_mark_paid (o : op) : bool :=
  match o with OpMarkPaid _ _ => true | _ => false end.

(** A ledger entry written by [mark_paid] for one of the operations. *)
Definition payout_of (os : list op) (t : TransactionLog.t) : Prop :=
  TransactionLog.direction t = "credit"
  ∧ TransactionLog.description t = "Booking payout"
  ∧ ∃ pk self, OpMarkPaid pk self ∈ os
      ∧ TransactionLog.booking t = Some pk
      ∧ TransactionLog.amount t = Booking.caregiver_earnings self.


(** ** Pets ([PetViewSet] in [marketplace/views.py]) *)

Definition DB_set_pets (v : gmap Z Pet.t) (d : DB.t) : DB.t :=
  DB.mk (DB.owner_profiles d) (DB.caregiver_profiles d) v (DB.service_types d)
    (DB.caregiver_services d) (DB.availabilities d) (DB.time_off d) (DB.bookings d)
    (DB.reviews d) (DB.transaction_logs d).

(** [PetViewSet.get_queryset]: [Pet.objects.filter(owner__user=request.user)],
    the pets whose owner, joined by its key, has the user of the request. *)
Definition PetViewSet_get_queryset (request : Request.t) (d : DB.t) : list (Z * Pet.t) :=
  filter (λ p, OwnerProfile.user <$> OwnerProfile_by_pk d (Pet.owner p.2)
               = Some (Request.user request))
    (map_to_list (DB.pets d)).

(** [PetViewSet.perform_create]:
    [serializer.save(owner=self.request.user.ownerprofile)]. The key of
    the new row, which [uuid.uuid4] draws, is given; the primary key
    refuses a key that is taken. *)
Definition PetViewSet_perform_create {S} (request : Request.t) (id : Z) : M S (Z * Pet.t) :=
  d ← get_db;
  owner ← objects_get TOwnerProfile "OwnerProfile" (DB.owner_profiles d)
            (Request.user request);
  sql (INSERT TPet);;
  match DB.pets d !! id with
  | Some _ => raise (DatabaseError "duplicate key value violates unique constraint")
  | None =>
      let pet := Pet.mk (OwnerProfile.id owner) in
      put_db (DB_set_pets (<[id := pet]> (DB.pets d)) d);;
      mret (id, pet)
  end.

(** The keys of the owner profiles: a profile is stored under its user,
    and is the profile its primary key finds. *)
Definition owner_keys_ok (d : DB.t) : Prop :=
  ∀ u o, DB.owner_profiles d !! u = Some o →
    OwnerProfile.user o = u ∧ OwnerProfile_by_pk d (OwnerProfile.id o) = Some o.

(** ** The views and the command on the sample marketplace *)

Module SampleRequests.
(** The owner, the caregiver under [as=caregiver], the caregiver without
    it, and a stranger. *)
Definition as_owner : Request.t := Request.mk 1 None None.
Definition as_caregiver : Request.t := Request.mk 70 (Some "caregiver") None.
Definition caregiver_plain : Request.t := Request.mk 70 None None.
Definition stranger : Request.t := Request.mk 99 None None.

Definition owner : OwnerProfile.t := OwnerProfile.mk 100 1.
Definition caregiver : CaregiverProfile.t := CaregiverProfile.mk 70 Decimal.zero2 0.

(** The booking is accepted, completed, reviewed; then its cancellation
    is asked for, and a second booking is requested. *)
Definition requests : list api :=
  [ApiAccept as_caregiver 0; ApiComplete as_caregiver 0;
   ApiCreateReview 1 (ReviewSerializer.Data 0 5 "a happy dog");
   ApiCancel as_owner 0;
   ApiCreateBooking Sample.now 1 Sample.request].

(** A request that overlaps [Sample.request]: from 14:30 to 15:30. *)
Definition request_overlapping : BookingCreateSerializer.attrs :=
  BookingCreateSerializer.Attrs 5 7 "dog_walk"
    (Sample.at_ Sample.monday 14 + 30 * 60000000) 60 None.
End SampleRequests.

Module SamplePets.
(** A request of the owner for a pet that is not stored. *)
Definition request_unknown_pet : BookingCreateSerializer.attrs :=
  BookingCreateSerializer.Attrs 6 7 "dog_walk" (Sample.at_ Sample.monday 14) 60 None.
End SamplePets.
(** * Properties *)

(** ** Decimal arithmetic *)

Module DecimalFacts.
Import Decimal.

Lemma ten_neq_0 : ¬ (10 # 1 == 0)%Q.
Proof. discriminate. Qed.

Lemma Qpow10_pos (z : Z) : (0 < (10 # 1) ^ z)%Q.
Proof. apply Qpower_0_lt. reflexivity. Qed.

Lemma pow10_pos (n : Z) : 0 ≤ n → 0 < 10 ^ n.
Proof. intros Hn. apply Z.pow_pos_nonneg; lia. Qed.

Lemma inject_pow10 (n : Z) : 0 ≤ n → (inject_Z (10 ^ n) == (10 # 1) ^ n)%Q.
Proof. intros Hn. now rewrite Zpower_Qpower. Qed.

(** Writing a decimal with a smaller exponent does not change its value. *)
Lemma toQ_scaled (d : t) (e : Z) :
  e ≤ expo d → (toQ d == inject_Z (scaled d e) * (10 # 1) ^ e)%Q.
Proof.
  intros He. unfold toQ, scaled.
  rewrite inject_Z_mult, inject_pow10 by lia.
  rewrite <- Qmult_assoc, <- Qpower_plus by apply ten_neq_0.
  now replace (expo d - e + e) with (expo d) by lia.
Qed.

Lemma inject_Z_le (x y : Z) : x ≤ y → (inject_Z x <= inject_Z y)%Q.
Proof. now rewrite Zle_Qle. Qed.


Lemma inject_Z_lt (x y : Z) : x < y → (inject_Z x < inject_Z y)%Q.
Proof. now rewrite Zlt_Qlt. Qed.

Lemma Qcompare_mult_pos (x y : Z) (p : Q) :
  (0 < p)%Q → (inject_Z x * p ?= inject_Z y * p)%Q = (x ?= y).
Proof.
  intros Hp. destruct (Z.compare_spec x y) as [Heq | Hlt | Hgt].
  - subst. apply Qeq_alt. reflexivity.
  - apply Qlt_alt. apply Qmult_lt_compat_r; [assumption |].
    apply inject_Z_lt; assumption.
  - apply Qgt_alt. apply Qmult_lt_compat_r; [assumption |].
    apply inject_Z_lt; assumption.
Qed.

(** The comparison of two decimals is the comparison of their values. *)
Lemma compare_toQ (a b : t) : compare a b = (toQ a ?= toQ b)%Q.
Proof.
  unfold compare. set (e := Z.min (expo a) (expo b)).
  rewrite (toQ_scaled a e), (toQ_scaled b e) by lia.
  symmetry. apply Qcompare_mult_pos, Qpow10_pos.
Qed.

Lemma eqb_toQ (a b : t) : eqb a b = true ↔ (toQ a == toQ b)%Q.
Proof.
  unfold eqb. rewrite compare_toQ, Qeq_alt.
  destruct (toQ a ?= toQ b)%Q; split; congruence.
Qed.

Lemma leb_toQ (a b : t) : leb a b = true ↔ (toQ a <= toQ b)%Q.
Proof.
  unfold leb. rewrite compare_toQ, Qle_alt.
  destruct (toQ a ?= toQ b)%Q; split; congruence.
Qed.

Lemma ltb_toQ (a b : t) : ltb a b = true ↔ (toQ a < toQ b)%Q.
Proof.
  unfold ltb. rewrite compare_toQ, Qlt_alt.
  destruct (toQ a ?= toQ b)%Q; split; congruence.
Qed.

Lemma toQ_mul (a b : t) : (toQ (mul a b) == toQ a * toQ b)%Q.
Proof.
  unfold toQ, mul; simpl.
  rewrite inject_Z_mult, Qpower_plus by apply ten_neq_0. ring.
Qed.

Lemma toQ_add (a b : t) : (toQ (add a b) == toQ a + toQ b)%Q.
Proof.
  unfold add. set (e := Z.min (expo a) (expo b)).
  rewrite (toQ_scaled a e), (toQ_scaled b e) by lia.
  unfold toQ; simpl. rewrite inject_Z_plus. ring.
Qed.

Lemma toQ_sub (a b : t) : (toQ (sub a b) == toQ a - toQ b)%Q.
Proof.
  unfold sub. set (e := Z.min (expo a) (expo b)).
  rewrite (toQ_scaled a e), (toQ_scaled b e) by lia.
  unfold toQ; simpl. unfold Z.sub.
  rewrite inject_Z_plus, inject_Z_opp. ring.
Qed.

Lemma toQ_zero : (toQ zero == 0)%Q.
Proof. reflexivity. Qed.

(** The sign of a decimal is the sign of its coefficient. *)
Lemma toQ_nonneg (d : t) : (0 <= toQ d)%Q ↔ 0 ≤ coef d.
Proof.
  unfold toQ. pose proof (Qpow10_pos (expo d)) as Hp. split.
  - intros H. destruct (Z.le_gt_cases 0 (coef d)) as [|Hneg]; [assumption |].
    exfalso.
    assert (H' : (inject_Z (coef d) * (10 # 1) ^ expo d < 0 * (10 # 1) ^ expo d)%Q).
    { apply Qmult_lt_compat_r; [assumption |]. apply (inject_Z_lt (coef d) 0); assumption. }
    rewrite Qmult_0_l in H'. now apply Qlt_not_le in H'.
  - intros H. apply Qmult_le_0_compat.
    + apply (inject_Z_le 0 (coef d)); assumption.
    + now apply Qlt_le_weak.
Qed.


(** At a tie the even neighbour is taken. *)
Lemma round_half_even_tie (n d : Z) :
  0 < d → 2 * (n mod d) = d → Z.even (round_half_even n d) = true.
Proof.
  intros Hd Htie. unfold round_half_even.
  destruct (Z.ltb_spec (2 * (n mod d)) d); [lia |].
  destruct (Z.ltb_spec d (2 * (n mod d))); [lia |].
  destruct (Z.even (n / d)) eqn:He; [assumption |].
  rewrite Z.even_add, He. reflexivity.
Qed.

Lemma expo_quantize (d q : t) : expo (quantize d q) = expo q.
Proof. unfold quantize. now destruct (expo q <=? expo d). Qed.


End DecimalFacts.

(** ** Commission split *)

Section Commission.

Variable PLATFORM_FEE_PERCENT : Decimal.

Import Decimal DecimalFacts.



(** The two parts add up to the amount. *)
Lemma commission_adds_up (amount : Decimal) :
  let '(platform_fee, caregiver_earnings) :=
    compute_commission PLATFORM_FEE_PERCENT amount in
  eqb (add platform_fee caregiver_earnings) amount = true
  ∧ eqb amount (add platform_fee caregiver_earnings) = true.
Proof.
  unfold compute_commission.
  split; apply eqb_toQ; rewrite toQ_add, toQ_sub; ring.
Qed.


End Commission.

(** ** Unfolding the monad *)

Ltac run_monad :=
  cbv [mbind M_bind mret M_ret raise get_self set_self get_db put_db sql
       atomic or_validation_error objects_get objects_get_where run
       mem db log fst snd].

(** ** The booking state machine *)

Section StateMachine.

(** The table of the code is the table of the specification. *)
Lemma allowed_transitions_table (from to : string) :
  to ∈ default ∅ (Booking.ALLOWED_TRANSITIONS !! from) ↔ allowed_transition from to.
Proof.
  unfold Booking.ALLOWED_TRANSITIONS, allowed_transition,
    Booking.STATUS_PENDING, Booking.STATUS_ACCEPTED, Booking.STATUS_REJECTED,
    Booking.STATUS_CANCELLED, Booking.STATUS_COMPLETED.
  destruct (decide (from = "pending")) as [-> | Hp].
  - rewrite lookup_insert_eq. simpl.
    rewrite !elem_of_union, !elem_of_singleton. intuition congruence.
  - rewrite lookup_insert_ne by congruence.
    destruct (decide (from = "accepted")) as [-> | Ha].
    + rewrite lookup_singleton_eq. simpl.
      rewrite !elem_of_union, !elem_of_singleton. intuition congruence.
    + rewrite lookup_singleton_ne by congruence. simpl.
      rewrite elem_of_empty. intuition congruence.
Qed.

(** What [change_status] does, case by case. *)
Lemma change_status_run (pk : nat) (new_status : string) (w : world Booking.t) :
  change_status pk new_status w =
    if decide (new_status ∉ default ∅ (Booking.ALLOWED_TRANSITIONS !! Booking.status (mem w)))
    then (Raise (ValueError ("Invalid transition from " +:+ Booking.status (mem w)
                              +:+ " to " +:+ new_status)), w)
    else
      let self := Booking.set_status new_status (mem w) in
      match DB.bookings (db w) !! pk with
      | Some row =>
          (Ok (), World self
                    (DB.set_bookings (<[pk := Booking.set_status new_status row]>
                                        (DB.bookings (db w))) (db w))
                    (log w ++ [UPDATE TBooking]))
      | None =>
          (Raise (DatabaseError "Save with update_fields did not affect any rows."),
           World self (db w) (log w ++ [UPDATE TBooking]))
      end.
Proof.
  unfold change_status, Booking_save_update_fields.
  destruct w as [self d l]. run_monad.
  case_decide; [reflexivity |].
  destruct (DB.bookings d !! pk); reflexivity.
Qed.

End StateMachine.

(** C1. [change_status] on a stored booking succeeds exactly when the new
    status is in the transition table for the current status of the
    instance; then the instance and its row carry the new status; otherwise
    the invalid-transition error is raised and neither the instance nor
    the database has changed. *)
Theorem change_status_legal
    (pk : nat) (self : Booking.t) (new_status : string) (d : DB.t) :
  is_Some (DB.bookings d !! pk) →
  let r := run (change_status pk new_status) self d in
  (r.1 = Ok () ↔ allowed_transition (Booking.status self) new_status)
  ∧ (allowed_transition (Booking.status self) new_status →
       Booking.status (mem r.2) = new_status
       ∧ Booking.status <$> DB.bookings (db r.2) !! pk = Some new_status)
  ∧ (¬ allowed_transition (Booking.status self) new_status →
       r.1 = Raise (InvalidTransition (Booking.status self) new_status)
       ∧ mem r.2 = self
       ∧ Booking.status (mem r.2) = Booking.status self
       ∧ db r.2 = d).
Proof.
  intros [row Hrow] r. subst r. unfold run.
  rewrite change_status_run; cbn [mem db log].
  pose proof (allowed_transitions_table (Booking.status self) new_status) as Htable.
  case_decide as Hin.
  - cbn. split; [| split].
    + split; [discriminate | tauto].
    + tauto.
    + intros _. unfold InvalidTransition. repeat split; reflexivity.
  - rewrite Hrow; cbn.
    split; [| split].
    + tauto.
    + intros _. split; [reflexivity |].
      rewrite list_lookup_insert_eq by (eapply lookup_lt_Some; eassumption).
      reflexivity.
    + tauto.
Qed.


(** ** Availability *)

Section Availability.

Lemma qs_exists_filter {A} (P : A → Prop) `{∀ x, Decision (P x)} (l : list A) :
  qs_exists (filter P l) = true ↔ ∃ x, x ∈ l ∧ P x.
Proof.
  split.
  - destruct (filter P l) as [| x l'] eqn:Hf; [discriminate |]. intros _.
    assert (Hx : x ∈ filter P l) by (rewrite Hf; left).
    apply list_elem_of_filter in Hx. exists x. tauto.
  - intros (x & Hx & HP).
    assert (Hin : x ∈ filter P l) by (apply list_elem_of_filter; tauto).
    destruct (filter P l); [| reflexivity]. now apply elem_of_nil in Hin.
Qed.

Lemma status_in_active (s : string) :
  s ∈ [Booking.STATUS_PENDING; Booking.STATUS_ACCEPTED] ↔ s = "pending" ∨ s = "accepted".
Proof.
  unfold Booking.STATUS_PENDING, Booking.STATUS_ACCEPTED.
  rewrite elem_of_cons, list_elem_of_singleton. reflexivity.
Qed.

Lemma check_window_spec d caregiver start end_ :
  check_window d caregiver start end_ = true ↔ weekly_window_ok d caregiver start end_.
Proof. unfold check_window. rewrite qs_exists_filter. reflexivity. Qed.

Lemma check_time_off_spec d caregiver start end_ :
  check_time_off d caregiver start end_ = true ↔ on_time_off d caregiver start end_.
Proof. unfold check_time_off. rewrite qs_exists_filter. reflexivity. Qed.

Lemma check_overlap_spec d caregiver start end_ :
  check_overlap d caregiver start end_ = true ↔ overlaps_booking d caregiver start end_.
Proof.
  unfold check_overlap, overlaps_booking. rewrite qs_exists_filter.
  split; intros (b & Hb & Hc & Hs & Ht); exists b;
    (split; [exact Hb | split; [exact Hc | split; [| exact Ht]]]);
    now apply status_in_active.
Qed.

Context {S : Type}.

(** What [is_caregiver_available] does: the queries it sends, in order,
    and its answer; the instance and the rows are left as they were. *)
Lemma is_caregiver_available_run (caregiver : Z) (start end_ : datetime) (w : world S) :
  is_caregiver_available caregiver start end_ w =
    if negb (check_window (db w) caregiver start end_) then
      (Ok false, World (mem w) (db w) (log w ++ [SELECT TCaregiverAvailability]))
    else if check_time_off (db w) caregiver start end_ then
      (Ok false, World (mem w) (db w)
                   ((log w ++ [SELECT TCaregiverAvailability]) ++ [SELECT TTimeOff]))
    else
      (Ok (negb (check_overlap (db w) caregiver start end_)),
       World (mem w) (db w)
         (((log w ++ [SELECT TCaregiverAvailability]) ++ [SELECT TTimeOff])
            ++ [SELECT TBooking])).
Proof.
  unfold is_caregiver_available, check_window, check_time_off, check_overlap.
  destruct w as [s d l]. run_monad.
  destruct (negb _); [reflexivity |].
  destruct (qs_exists _); reflexivity.
Qed.

End Availability.

(** C2. [is_caregiver_available] answers true exactly when the weekly
    window of the start day covers the two times of day, no time off
    covers the two dates and no pending or accepted booking overlaps; the
    availabilities are queried first, the time off only when the window
    check passed, the bookings only when both passed; nothing is written. *)
Theorem is_caregiver_available_spec {S : Type}
    (caregiver : Z) (start end_ : datetime) (w : world S) :
  let r := is_caregiver_available caregiver start end_ w in
  let window := weekly_window_ok (db w) caregiver start end_ in
  let off := on_time_off (db w) caregiver start end_ in
  let overlap := overlaps_booking (db w) caregiver start end_ in
  (r.1 = Ok true ∨ r.1 = Ok false)
  ∧ (r.1 = Ok true ↔ window ∧ ¬ off ∧ ¬ overlap)
  ∧ (¬ window → log r.2 = log w ++ [SELECT TCaregiverAvailability])
  ∧ (window → off →
       log r.2 = log w ++ [SELECT TCaregiverAvailability; SELECT TTimeOff])
  ∧ (window → ¬ off →
       log r.2 = log w ++ [SELECT TCaregiverAvailability; SELECT TTimeOff; SELECT TBooking])
  ∧ mem r.2 = mem w
  ∧ db r.2 = db w.
Proof.
  intros r window off overlap. subst r window off overlap.
  rewrite is_caregiver_available_run.
  rewrite <- check_window_spec, <- check_time_off_spec, <- check_overlap_spec.
  destruct (check_window _ _ _ _); cbn [negb];
    [destruct (check_time_off _ _ _ _); [| destruct (check_overlap _ _ _ _)] |];
    cbn [fst snd mem db log negb]; rewrite <- ?app_assoc; cbn [app];
    repeat split; try tauto; try congruence; try (intros; intuition congruence);
    try (right; reflexivity); try (left; reflexivity).
Qed.

(** ** Payment *)

Section Payment.

(** What [mark_paid] does, case by case. *)
Lemma mark_paid_run (pk : nat) (w : world Booking.t) :
  mark_paid pk w =
    if decide (Booking.payment_status (mem w) = Booking.PAYMENT_PAID) then (Ok (), w)
    else
      let self := Booking.set_payment_status Booking.PAYMENT_PAID (mem w) in
      match DB.bookings (db w) !! pk with
      | None =>
          (Raise (DatabaseError "Save with update_fields did not affect any rows."),
           World self (db w) (log w ++ [UPDATE TBooking]))
      | Some row =>
          let d1 := DB.set_bookings
                      (<[pk := Booking.set_payment_status Booking.PAYMENT_PAID row]>
                         (DB.bookings (db w))) (db w) in
          match DB.caregiver_profiles (db w) !! Booking.caregiver (mem w) with
          | None =>
              (Raise (DoesNotExist "CaregiverProfile"),
               World self (db w)
                 ((log w ++ [UPDATE TBooking]) ++ [SELECT TCaregiverProfile]))
          | Some c =>
              (Ok (),
               World self
                 (DB.set_transaction_logs
                    (DB.transaction_logs (db w) ++ [payout_entry pk (mem w) c]) d1)
                 (((log w ++ [UPDATE TBooking]) ++ [SELECT TCaregiverProfile])
                    ++ [INSERT TTransactionLog]))
          end
      end.
Proof.
  unfold mark_paid, Booking_save_update_fields, TransactionLog_objects_create.
  destruct w as [self d l]. run_monad.
  case_decide; [reflexivity |].
  destruct (DB.bookings d !! pk); [| reflexivity]. cbn.
  destruct (DB.caregiver_profiles d !! Booking.caregiver self); reflexivity.
Qed.



End Payment.


(** C10. [mark_paid] does not look at the status of the booking: for a
    stored booking that does not say paid, whatever its status, the
    payment status becomes paid and [caregiver_earnings] is credited to the
    caregiver's user, the status staying what it was. *)
Theorem mark_paid_ignores_status
    (pk : nat) (self : Booking.t) (d : DB.t) (row : Booking.t)
    (c : CaregiverProfile.t) (status : string) :
  DB.bookings d !! pk = Some row →
  DB.caregiver_profiles d !! Booking.caregiver self = Some c →
  Booking.payment_status self ≠ "paid" →
  let r := run (mark_paid pk) (Booking.set_status status self) d in
  r.1 = Ok ()
  ∧ Booking.payment_status (mem r.2) = "paid"
  ∧ Booking.status (mem r.2) = status
  ∧ DB.bookings (db r.2) !! pk = Some (Booking.set_payment_status "paid" row)
  ∧ DB.transaction_logs (db r.2) = DB.transaction_logs d ++ [payout_entry pk self c]
  ∧ TransactionLog.direction (payout_entry pk self c) = "credit"
  ∧ TransactionLog.amount (payout_entry pk self c) = Booking.caregiver_earnings self
  ∧ TransactionLog.user (payout_entry pk self c) = Some (CaregiverProfile.user c)
  ∧ db r.2 = db (run (mark_paid pk) self d).2.
Proof.
  intros Hrow Hc Hunpaid r. subst r. unfold run.
  rewrite !mark_paid_run; cbn [mem db log].
  rewrite !decide_False by exact Hunpaid.
  change (Booking.caregiver (Booking.set_status status self)) with (Booking.caregiver self).
  rewrite Hrow, Hc. cbn.
  repeat split.
  rewrite list_lookup_insert_eq by (eapply lookup_lt_Some; eassumption).
  reflexivity.
Qed.

(** ** Ratings *)

Section Ratings.

Import Decimal DecimalFacts.




Context {S : Type}.

(** What [recalc_ratings] does. *)
Lemma recalc_ratings_run (self : Z) (w : world S) :
  recalc_ratings self w =
    let ratings := ratings_of (db w) self in
    let l := (log w ++ [SELECT TReview]) ++ [UPDATE TCaregiverProfile] in
    match DB.caregiver_profiles (db w) !! self with
    | Some row =>
        (Ok (),
         World (mem w)
           (DB.set_caregiver_profiles
              (<[self := CaregiverProfile.set_ratings
                           (computed_average ratings) (Count ratings) row]>
                 (DB.caregiver_profiles (db w))) (db w)) l)
    | None =>
        (Raise (DatabaseError "Save with update_fields did not affect any rows."),
         World (mem w) (db w) l)
    end.
Proof.
  unfold recalc_ratings, ratings_of, computed_average.
  destruct w as [s d l]. run_monad.
  destruct (DB.caregiver_profiles d !! self); reflexivity.
Qed.

End Ratings.


(** ** Reviews *)

Section Reviews.

Context {S : Type}.
Variable user : Z.

(** What the creation of a review does, case by case. *)
Lemma create_review_run (data : ReviewSerializer.data) (w : world S) :
  create_review user data w =
    let pk := ReviewSerializer.booking_pk data in
    let l1 := log w ++ [SELECT TBooking] in
    match DB.bookings (db w) !! pk with
    | None =>
        (Raise (ValidationError "Invalid pk - object does not exist."),
         World (mem w) (db w) l1)
    | Some booking =>
        if decide (ReviewSerializer.rating_in data < 1) then
          (Raise (ValidationError "Ensure this value is greater than or equal to 1."),
           World (mem w) (db w) l1)
        else if decide (ReviewSerializer.rating_in data > 5) then
          (Raise (ValidationError "Ensure this value is less than or equal to 5."),
           World (mem w) (db w) l1)
        else if decide (Booking.status booking ≠ Booking.STATUS_COMPLETED) then
          (Raise (ValidationError "Reviews are only allowed for completed bookings"),
           World (mem w) (db w) l1)
        else if qs_exists (filter (λ r, Review.booking r = pk) (DB.reviews (db w))) then
          (Raise (ValidationError "A review already exists for this booking"),
           World (mem w) (db w) (l1 ++ [SELECT TReview]))
        else
          let review := review_of user data booking in
          let d1 := DB.set_reviews (DB.reviews (db w) ++ [review]) (db w) in
          let l2 := (((l1 ++ [SELECT TReview]) ++ [INSERT TReview])
                       ++ [SELECT TReview]) ++ [UPDATE TCaregiverProfile] in
          let target := Booking.caregiver booking in
          match DB.caregiver_profiles (db w) !! target with
          | Some row =>
              (Ok (length (DB.reviews (db w)), review),
               World (mem w)
                 (DB.set_caregiver_profiles
                    (<[target := CaregiverProfile.set_ratings
                                   (computed_average (ratings_of d1 target))
                                   (Count (ratings_of d1 target)) row]>
                       (DB.caregiver_profiles (db w))) d1) l2)
          | None =>
              (Raise (DatabaseError "Save with update_fields did not affect any rows."),
               World (mem w) d1 l2)
          end
    end.
Proof.
  unfold create_review, ReviewSerializer_to_internal_value, ReviewSerializer_validate,
    ReviewSerializer_create, Review_save, Model_save_review, review_of.
  destruct w as [s d l]. run_monad.
  destruct (DB.bookings d !! ReviewSerializer.booking_pk data) as [booking |];
    [| reflexivity].
  case_decide; [reflexivity |]. case_decide; [reflexivity |].
  cbn [ReviewSerializer.booking ReviewSerializer.rating ReviewSerializer.comment].
  case_decide; [reflexivity |].
  destruct (qs_exists _); [reflexivity |].
  cbn [ReviewSerializer.fields ReviewSerializer.target_caregiver ReviewSerializer.booking
       ReviewSerializer.rating ReviewSerializer.comment fst Review.target_caregiver].
  rewrite recalc_ratings_run. cbn [db mem log DB.caregiver_profiles DB.set_reviews].
  destruct (DB.caregiver_profiles d !! Booking.caregiver booking); reflexivity.
Qed.

Lemma has_review_spec (d : DB.t) (pk : nat) :
  qs_exists (filter (λ r, Review.booking r = pk) (DB.reviews d)) = true ↔ has_review d pk.
Proof. rewrite qs_exists_filter. reflexivity. Qed.

Lemma reads_only_snoc (l : list stmt) (t : table) :
  reads_only l → reads_only (l ++ [SELECT t]).
Proof.
  intros Hl q Hq. apply elem_of_app in Hq as [Hq | Hq]; [now apply Hl |].
  apply list_elem_of_singleton in Hq. eauto.
Qed.




End Reviews.

(** ** Creation of a booking *)

Section Creation.

Variable PLATFORM_FEE_PERCENT : Decimal.
Variable now : datetime.
Variable user : Z.
Context {S : Type}.

Lemma available_spec (d : DB.t) (caregiver : Z) (start end_ : datetime) :
  (if negb (check_window d caregiver start end_) then false
   else if check_time_off d caregiver start end_ then false
   else negb (check_overlap d caregiver start end_)) = true
  ↔ weekly_window_ok d caregiver start end_
    ∧ ¬ on_time_off d caregiver start end_
    ∧ ¬ overlaps_booking d caregiver start end_.
Proof.
  rewrite <- check_window_spec, <- check_time_off_spec, <- check_overlap_spec.
  destruct (check_window _ _ _ _), (check_time_off _ _ _ _), (check_overlap _ _ _ _);
    cbn; intuition congruence.
Qed.

(** A creation either fails with a validation error, the conditions
    being violated and nothing written, or it succeeds, the conditions
    being met and the one row inserted. *)
Lemma create_booking_cases (attrs : BookingCreateSerializer.attrs) (w : world S) :
  let r := create_booking PLATFORM_FEE_PERCENT now user attrs w in
  (∃ msg,
      r.1 = Raise (ValidationError msg)
      ∧ mem r.2 = mem w ∧ db r.2 = db w ∧ (reads_only (log w) → reads_only (log r.2))
      ∧ ¬ ∃ owner pet caregiver service_type caregiver_service,
            request_ok now user attrs (db w) owner pet caregiver service_type
              caregiver_service)
  ∨ (∃ owner pet caregiver service_type caregiver_service,
      request_ok now user attrs (db w) owner pet caregiver service_type caregiver_service
      ∧ r.1 = Ok (length (DB.bookings (db w)),
                  created_booking PLATFORM_FEE_PERCENT attrs owner caregiver_service)
      ∧ mem r.2 = mem w
      ∧ db r.2 = DB.set_bookings
                   (DB.bookings (db w) ++ [created_booking PLATFORM_FEE_PERCENT attrs owner caregiver_service])
                   (db w)).
Proof.
  unfold create_booking, BookingCreateSerializer_validate, BookingCreateSerializer_create.
  destruct w as [s d l]. run_monad.
  destruct (DB.owner_profiles d !! user) as [owner |] eqn:Ho; cycle 1.
  { left. eexists. repeat split; try reflexivity.
    - intros Hl. now apply reads_only_snoc.
    - intros (? & ? & ? & ? & ? & Hok); destruct Hok; congruence. }
  destruct (DB.pets d !! BookingCreateSerializer.pet_id attrs) as [pet |] eqn:Hp; cycle 1.
  { left. eexists. repeat split; try reflexivity.
    - intros Hl. now repeat apply reads_only_snoc.
    - intros (? & ? & ? & ? & ? & Hok); destruct Hok; congruence. }
  case_decide as Hpo; cycle 1.
  { left. eexists. repeat split; try reflexivity.
    - intros Hl. now repeat apply reads_only_snoc.
    - intros (? & ? & ? & ? & ? & Hok); destruct Hok; congruence. }
  destruct (DB.caregiver_profiles d !! BookingCreateSerializer.caregiver_id attrs)
    as [caregiver |] eqn:Hc; cycle 1.
  { left. eexists. repeat split; try reflexivity.
    - intros Hl. now repeat apply reads_only_snoc.
    - intros (? & ? & ? & ? & ? & Hok); destruct Hok; congruence. }
  destruct (DB.service_types d !! BookingCreateSerializer.service_type_code attrs)
    as [service_type |] eqn:Hs; cycle 1.
  { left. eexists. repeat split; try reflexivity.
    - intros Hl. now repeat apply reads_only_snoc.
    - intros (? & ? & ? & ? & ? & Hok); destruct Hok; congruence. }
  destruct (DB.caregiver_services d !! _) as [caregiver_service |] eqn:Hcs; cycle 1.
  { left. eexists. repeat split; try reflexivity.
    - intros Hl. now repeat apply reads_only_snoc.
    - intros (? & ? & ? & ? & ? & Hok); destruct Hok; congruence. }
  case_decide as Hact; cycle 1.
  { left. eexists. repeat split; try reflexivity.
    - intros Hl. now repeat apply reads_only_snoc.
    - intros (? & ? & ? & ? & ? & Hok); destruct Hok; congruence. }
  case_decide as Hstart.
  { left. eexists. repeat split; try reflexivity.
    - intros Hl. now repeat apply reads_only_snoc.
    - intros (? & ? & ? & ? & ? & Hok); destruct Hok; lia. }
  case_decide as Hdur.
  { left. eexists. repeat split; try reflexivity.
    - intros Hl. now repeat apply reads_only_snoc.
    - intros (? & ? & ? & st' & ? & Hok); destruct Hok.
      assert (st' = service_type) by congruence. subst st'. lia. }
  rewrite is_caregiver_available_run; cbn [mem db log].
  pose proof (available_spec d (BookingCreateSerializer.caregiver_id attrs)
    (BookingCreateSerializer.start_datetime attrs)
    (BookingCreateSerializer.start_datetime attrs
       + timedelta_minutes (BookingCreateSerializer.duration_minutes attrs))) as Hav.
  destruct (negb (check_window _ _ _ _)).
  { left. eexists. repeat split; try reflexivity.
    - intros Hl. now repeat apply reads_only_snoc.
    - intros (? & ? & ? & ? & ? & Hok); destruct Hok; intuition congruence. }
  destruct (check_time_off _ _ _ _).
  { left. eexists. repeat split; try reflexivity.
    - intros Hl. now repeat apply reads_only_snoc.
    - intros (? & ? & ? & ? & ? & Hok); destruct Hok; intuition congruence. }
  destruct (check_overlap _ _ _ _); cbn [negb] in *.
  { left. eexists. repeat split; try reflexivity.
    - intros Hl. now repeat apply reads_only_snoc.
    - intros (? & ? & ? & ? & ? & Hok); destruct Hok; intuition congruence. }
  right. exists owner, pet, caregiver, service_type, caregiver_service.
  split; [| repeat split].
  constructor; try assumption; try lia. now apply Hav.
Qed.

End Creation.


(** ** The money columns *)

Section Money.

Variable PLATFORM_FEE_PERCENT : Decimal.

Lemma money_adds_up_columns (b b' : Booking.t) :
  money_columns b' = money_columns b → money_adds_up b → money_adds_up b'.
Proof.
  unfold money_columns, money_adds_up. intros H. injection H as -> -> ->. tauto.
Qed.

Lemma money_kept_refl (l : list Booking.t) : money_kept l l.
Proof. split; intros i b Hb; [| left]; exists b; split; auto. Qed.

Lemma money_kept_trans (l1 l2 l3 : list Booking.t) :
  money_kept l1 l2 → money_kept l2 l3 → money_kept l1 l3.
Proof.
  intros [H12 H12'] [H23 H23']. split.
  - intros i b Hb. destruct (H12 i b Hb) as (b2 & Hb2 & Hc2).
    destruct (H23 i b2 Hb2) as (b3 & Hb3 & Hc3). exists b3. split; congruence.
  - intros i b3 Hb3. destruct (H23' i b3 Hb3) as [(b2 & Hb2 & Hc3) | Hnew]; [| now right].
    destruct (H12' i b2 Hb2) as [(b1 & Hb1 & Hc2) | Hnew].
    + left. exists b1. split; congruence.
    + right. now apply (money_adds_up_columns b2).
Qed.

Lemma money_kept_update (l : list Booking.t) (pk : nat) (row row' : Booking.t) :
  l !! pk = Some row → money_columns row' = money_columns row →
  money_kept l (<[pk := row']> l).
Proof.
  intros Hrow Hcols. pose proof (lookup_lt_Some _ _ _ Hrow) as Hlt. split.
  - intros i b Hb. destruct (decide (i = pk)) as [-> | Hne].
    + exists row'. rewrite list_lookup_insert_eq by assumption. split; congruence.
    + exists b. rewrite list_lookup_insert_ne by congruence. auto.
  - intros i b' Hb'. left. destruct (decide (i = pk)) as [-> | Hne].
    + rewrite list_lookup_insert_eq in Hb' by assumption. exists row. split; congruence.
    + rewrite list_lookup_insert_ne in Hb' by congruence. eauto.
Qed.

Lemma money_kept_snoc (l : list Booking.t) (b : Booking.t) :
  money_adds_up b → money_kept l (l ++ [b]).
Proof.
  intros Hb. split.
  - intros i x Hx. exists x. split; [| reflexivity].
    now apply lookup_app_l_Some.
  - intros i x Hx. apply lookup_app_Some in Hx as [Hx | [_ Hx]].
    + left. eauto.
    + right. apply list_lookup_singleton_Some in Hx as [_ <-]. exact Hb.
Qed.

Lemma created_booking_adds_up attrs owner cs :
  money_adds_up (created_booking PLATFORM_FEE_PERCENT attrs owner cs).
Proof.
  unfold money_adds_up, created_booking; cbn [Booking.price_subtotal
    Booking.platform_fee Booking.caregiver_earnings].
  pose proof (commission_adds_up PLATFORM_FEE_PERCENT (CaregiverService.price_per_unit cs)) as H.
  destruct (compute_commission _ _). apply H.
Qed.

(** Every operation keeps the money columns. *)
Lemma run_op_money_kept (o : op) (d : DB.t) :
  money_kept (DB.bookings d) (DB.bookings (run_op PLATFORM_FEE_PERCENT o d)).
Proof.
  destruct o as [now user attrs | pk self new_status | pk self | user data];
    cbn [run_op]; unfold run.
  - destruct (create_booking_cases PLATFORM_FEE_PERCENT now user attrs (World () d []))
      as [(msg & _ & _ & Hdb & _) | (o & p & c & st & cs & _ & _ & _ & Hdb)];
      cbn [db] in Hdb; rewrite Hdb.
    + apply money_kept_refl.
    + apply money_kept_snoc, created_booking_adds_up.
  - rewrite change_status_run; cbn [mem db log].
    case_decide; [apply money_kept_refl |].
    destruct (DB.bookings d !! pk) as [row |] eqn:Hrow; cbn; [| apply money_kept_refl].
    now apply (money_kept_update _ _ row).
  - rewrite mark_paid_run; cbn [mem db log].
    case_decide; [apply money_kept_refl |].
    destruct (DB.bookings d !! pk) as [row |] eqn:Hrow; cbn; [| apply money_kept_refl].
    destruct (DB.caregiver_profiles d !! _); cbn; [| apply money_kept_refl].
    now apply (money_kept_update _ _ row).
  - rewrite create_review_run; cbn [mem db log]. cbn zeta.
    destruct (DB.bookings d !! _); [| apply money_kept_refl].
    repeat (case_decide; [apply money_kept_refl |]).
    destruct (qs_exists _); [apply money_kept_refl |].
    destruct (DB.caregiver_profiles d !! _); apply money_kept_refl.
Qed.

Lemma run_ops_money_kept (os : list op) (d : DB.t) :
  money_kept (DB.bookings d) (DB.bookings (run_ops PLATFORM_FEE_PERCENT os d)).
Proof.
  revert d. induction os as [| o os IH]; intros d; [apply money_kept_refl |].
  cbn [run_ops foldl]. eapply money_kept_trans; [apply run_op_money_kept |].
  apply IH.
Qed.

End Money.

(** C6. The price of a booking is the sum of its two parts when the
    booking is created and after every later operation of the core, none of
    which changes the three money columns of a stored booking. *)
Theorem money_invariant (PLATFORM_FEE_PERCENT : Decimal) (os : list op) (d : DB.t) :
  Forall money_adds_up (DB.bookings d) →
  let d' := run_ops PLATFORM_FEE_PERCENT os d in
  Forall money_adds_up (DB.bookings d')
  ∧ (∀ i b, DB.bookings d !! i = Some b →
       ∃ b', DB.bookings d' !! i = Some b'
             ∧ Booking.price_subtotal b' = Booking.price_subtotal b
             ∧ Booking.platform_fee b' = Booking.platform_fee b
             ∧ Booking.caregiver_earnings b' = Booking.caregiver_earnings b)
  ∧ (∀ now user attrs pk b,
       (run (create_booking PLATFORM_FEE_PERCENT now user attrs) () d).1 = Ok (pk, b) →
       money_adds_up b).
Proof.
  intros Hinv d'. destruct (run_ops_money_kept PLATFORM_FEE_PERCENT os d) as [Hold Hnew].
  fold d' in Hold, Hnew. repeat apply conj.
  - apply Forall_lookup. intros i b' Hb'.
    destruct (Hnew i b' Hb') as [(b & Hb & Hcols) | Hadd]; [| exact Hadd].
    apply (money_adds_up_columns b); [exact Hcols |].
    exact (proj1 (Forall_lookup _ _) Hinv i b Hb).
  - intros i b Hb. destruct (Hold i b Hb) as (b' & Hb' & Hcols).
    exists b'. unfold money_columns in Hcols. injection Hcols as H1 H2 H3. auto.
  - intros now user attrs pk b Hok. unfold run in Hok.
    destruct (create_booking_cases PLATFORM_FEE_PERCENT now user attrs (World () d []))
      as [(msg & Hr & _) | (o & p & c & st & cs & _ & Hr & _)]; [congruence |].
    rewrite Hr in Hok. injection Hok as _ <-. apply created_booking_adds_up.
Qed.






(** ** Worked examples *)

(** The example of the specification: with a pending booking from 10:00 to
    11:00, a window that overlaps it is refused, a window on the day off
    is refused, and 14:00 to 15:00 on the same day is free. *)
Example availability_exclusion :
  (run (is_caregiver_available 7 (Sample.at_ Sample.monday 10 + 1800000000)
          (Sample.at_ Sample.monday 12)) () Sample.database).1 = Ok false
  ∧ (run (is_caregiver_available 7 (Sample.at_ (Sample.monday + 7) 14)
            (Sample.at_ (Sample.monday + 7) 15)) () Sample.database).1 = Ok false
  ∧ (run (is_caregiver_available 7 (Sample.at_ Sample.monday 14)
            (Sample.at_ Sample.monday 15)) () Sample.database).1 = Ok true.
Proof. repeat split; vm_compute; reflexivity. Qed.

(** A booking from Monday 19:30 to Tuesday 00:30 is checked against
    Monday's window only, and against the time of day of its end. *)
Example crossing_midnight :
  (run (is_caregiver_available 7 (Sample.at_ Sample.monday 19 + 1800000000)
          (Sample.at_ (Sample.monday + 1) 0 + 1800000000)) () Sample.database).1 = Ok true.
Proof. vm_compute. reflexivity. Qed.

(** The examples of the specification for the state machine. *)
Example state_machine_paths :
  (run (change_status 0 "completed") Sample.booking Sample.database).1
    = Raise (InvalidTransition "pending" "completed")
  ∧ (run (change_status 0 "accepted";; change_status 0 "completed")
       Sample.booking Sample.database).1 = Ok ()
  ∧ (run (change_status 0 "pending")
       (Booking.set_status "completed" Sample.booking) Sample.database).1
    = Raise (InvalidTransition "completed" "pending").
Proof. repeat split; vm_compute; reflexivity. Qed.

(** With a fee rate above one half, an amount below a cent can yield
    negative earnings: the condition of C3 on the setting is needed. *)
Example earnings_negative_for_high_fee :
  compute_commission (Decimal.mk 9 (-1)) (Decimal.mk 6 (-3))
    = (Decimal.mk 1 (-2), Decimal.mk (-4) (-3)).
Proof. reflexivity. Qed.

Lemma change_status_legal_witness :
  is_Some (DB.bookings Sample.database !! 0%nat)
  ∧ (run (change_status 0 "accepted") Sample.booking Sample.database).1 = Ok ()
  ∧ (run (change_status 0 "completed") Sample.booking Sample.database).1
      = Raise (InvalidTransition "pending" "completed").
Proof.
  assert (H : is_Some (DB.bookings Sample.database !! 0%nat)) by (eexists; reflexivity).
  split; [exact H |]. split.
  - destruct (change_status_legal 0 Sample.booking "accepted" Sample.database H)
      as (Hiff & _ & _).
    apply Hiff. left. split; [reflexivity | left; reflexivity].
  - destruct (change_status_legal 0 Sample.booking "completed" Sample.database H)
      as (_ & _ & Hrej).
    apply Hrej. intros [[_ [Hs | [Hs | Hs]]] | [Hs _]]; discriminate Hs.
Defined.

Lemma is_caregiver_available_spec_witness :
  weekly_window_ok Sample.database 7 (Sample.at_ Sample.monday 14) (Sample.at_ Sample.monday 15)
  ∧ ¬ on_time_off Sample.database 7 (Sample.at_ Sample.monday 14) (Sample.at_ Sample.monday 15)
  ∧ ¬ overlaps_booking Sample.database 7 (Sample.at_ Sample.monday 14) (Sample.at_ Sample.monday 15).
Proof.
  destruct (is_caregiver_available_spec 7 (Sample.at_ Sample.monday 14)
              (Sample.at_ Sample.monday 15) (World () Sample.database []))
    as (_ & Hiff & _).
  apply Hiff. vm_compute. reflexivity.
Defined.




Lemma money_invariant_witness :
  Forall money_adds_up (DB.bookings Sample.database)
  ∧ Forall money_adds_up
      (DB.bookings (run_ops Sample.fee Sample.operations Sample.database))
  ∧ length (DB.bookings (run_ops Sample.fee Sample.operations Sample.database)) = 2%nat.
Proof.
  assert (H : Forall money_adds_up (DB.bookings Sample.database)).
  { repeat constructor. }
  split; [exact H |]. split.
  - apply (money_invariant Sample.fee Sample.operations Sample.database H).
  - vm_compute. reflexivity.
Defined.




Lemma mark_paid_ignores_status_witness :
  DB.bookings Sample.database !! 0%nat = Some Sample.booking
  ∧ DB.caregiver_profiles Sample.database !! Booking.caregiver Sample.booking
      = Some (CaregiverProfile.mk 70 Decimal.zero2 0)
  ∧ Booking.payment_status Sample.booking ≠ "paid"
  ∧ DB.transaction_logs
      (db (run (mark_paid 0) (Booking.set_status "rejected" Sample.booking)
             Sample.database).2)
    = [payout_entry 0 Sample.booking (CaregiverProfile.mk 70 Decimal.zero2 0)].
Proof.
  assert (H : Booking.payment_status Sample.booking ≠ "paid") by discriminate.
  split; [reflexivity |]. split; [reflexivity |]. split; [exact H |].
  destruct (mark_paid_ignores_status 0 Sample.booking Sample.database Sample.booking
              (CaregiverProfile.mk 70 Decimal.zero2 0) "rejected" eq_refl eq_refl H)
    as (_ & _ & _ & _ & Hledger & _).
  exact Hledger.
Defined.

(** * Further properties: the views, the management command, the order of
    the commission, the ledger and the pets *)

(** ** The booking views *)

Section Views.

Lemma select_related_pk (d : DB.t) (pk : nat) (b : Booking.t) (x : Loaded.t) :
  select_related d pk b = Some x →
  Loaded.pk x = pk ∧ Loaded.row x = b
  ∧ OwnerProfile_by_pk d (Booking.owner b) = Some (Loaded.owner x)
  ∧ DB.caregiver_profiles d !! Booking.caregiver b = Some (Loaded.caregiver x).
Proof.
  unfold select_related. intros H.
  destruct (OwnerProfile_by_pk d _) as [o |]; [| discriminate].
  destruct (DB.caregiver_profiles d !! _) as [c |]; [| discriminate].
  destruct (DB.pets d !! _); [| discriminate].
  destruct (DB.service_types d !! _); [| discriminate].
  cbn in H. injection H as <-. auto.
Qed.

Lemma omap_id_cons {A} (o : option A) (l : list (option A)) :
  omap id (o :: l) = match o with Some x => x :: omap id l | None => omap id l end.
Proof. destruct o; reflexivity. Qed.

(** The rows of the query set with a given key: at most one. *)
Lemma filter_pk_queryset (d : DB.t) (l : list Booking.t) (n k : nat) :
  filter (λ x, Loaded.pk x = k) (omap id (imap (λ i, select_related d (n + i)) l))
  = match (if decide (n ≤ k)%nat then l !! (k - n)%nat else None) with
    | Some b => match select_related d k b with Some x => [x] | None => [] end
    | None => []
    end.
Proof.
  revert n. induction l as [| b l IH]; intros n.
  - cbn. case_decide; [rewrite lookup_nil |]; reflexivity.
  - rewrite imap_cons, omap_id_cons.
    replace (imap ((λ i, select_related d (n + i)) ∘ S) l)
      with (imap (λ i, select_related d (S n + i)) l)
      by (apply imap_ext; intros i y _; cbn; f_equal; lia).
    replace (n + 0)%nat with n by lia.
    destruct (select_related d n b) as [x |] eqn:Hx.
    + apply select_related_pk in Hx as Hpk. destruct Hpk as (Hpk & _).
      destruct (decide (k = n)) as [-> | Hne].
      * rewrite filter_cons_True by exact Hpk. rewrite IH.
        rewrite decide_False by lia. rewrite decide_True by lia.
        rewrite Nat.sub_diag. cbn. rewrite Hx. reflexivity.
      * rewrite filter_cons_False by (rewrite Hpk; congruence). rewrite IH.
        destruct (decide (S n ≤ k)%nat), (decide (n ≤ k)%nat); try lia; try reflexivity.
        replace (k - n)%nat with (S (k - S n)) by lia. reflexivity.
    + rewrite IH.
      destruct (decide (k = n)) as [-> | Hne].
      * rewrite decide_False by lia. rewrite decide_True by lia.
        rewrite Nat.sub_diag. cbn. rewrite Hx. reflexivity.
      * destruct (decide (S n ≤ k)%nat), (decide (n ≤ k)%nat); try lia; try reflexivity.
        replace (k - n)%nat with (S (k - S n)) by lia. reflexivity.
Qed.

Lemma filter_swap {A} (P Q : A → Prop) `{∀ x, Decision (P x)} `{∀ x, Decision (Q x)}
    (l : list A) :
  filter P (filter Q l) = filter Q (filter P l).
Proof.
  induction l as [| x l IH]; [reflexivity |].
  destruct (decide (P x)), (decide (Q x));
    repeat (rewrite ?filter_cons_True, ?filter_cons_False by assumption);
    rewrite ?IH; reflexivity.
Qed.

(** [get_object] finds the booking exactly when the request sees it. *)
Lemma get_object_visible (request : Request.t) (d : DB.t) (pk : nat) :
  head (filter (λ b, Loaded.pk b = pk) (BookingViewSet_get_queryset request d))
  = visible request d pk.
Proof.
  unfold BookingViewSet_get_queryset, visible, BookingViewSet_queryset.
  assert (Hbase : filter (λ x, Loaded.pk x = pk)
                    (omap id (imap (select_related d) (DB.bookings d)))
                  = match DB.bookings d !! pk with
                    | Some b => match select_related d pk b with
                                | Some x => [x] | None => [] end
                    | None => []
                    end).
  { pose proof (filter_pk_queryset d (DB.bookings d) 0 pk) as H.
    rewrite decide_True in H by lia. rewrite Nat.sub_0_r in H. exact H. }
  destruct (Request.query_status request) as [s |];
    [destruct (decide (s ≠ "")) as [Hs | Hs] |];
    destruct (bool_decide (Request.query_as request = Some "caregiver"));
    rewrite ?(filter_swap (λ b, Loaded.pk b = pk)), Hbase;
    destruct (DB.bookings d !! pk) as [b |]; cbn; try reflexivity;
    destruct (select_related d pk b) as [x |]; cbn; try reflexivity;
    cbn; repeat (case_decide || case_bool_decide); cbn;
    repeat (case_decide || case_bool_decide); cbn;
    try reflexivity; try contradiction; try congruence.
Qed.

Lemma visible_Some (request : Request.t) (d : DB.t) (pk : nat) (x : Loaded.t) :
  visible request d pk = Some x →
  Loaded.pk x = pk
  ∧ DB.bookings d !! pk = Some (Loaded.row x)
  ∧ select_related d pk (Loaded.row x) = Some x
  ∧ (if bool_decide (Request.query_as request = Some "caregiver")
     then CaregiverProfile.user (Loaded.caregiver x) = Request.user request
     else OwnerProfile.user (Loaded.owner x) = Request.user request).
Proof.
  unfold visible. intros H.
  destruct (DB.bookings d !! pk) as [b |] eqn:Hb; [| discriminate]. cbn in H.
  destruct (select_related d pk b) as [y |] eqn:Hy; [| discriminate]. cbn in H.
  destruct (select_related_pk _ _ _ _ Hy) as (Hpk & Hrow & _).
  destruct (_ && _) eqn:Hf; [| discriminate]. injection H as <-.
  apply andb_prop in Hf as [Hf _].
  rewrite Hrow. repeat split; try assumption.
  destruct (bool_decide (Request.query_as request = Some "caregiver"));
    now apply bool_decide_eq_true_1 in Hf.
Qed.

Context {S : Type}.

Lemma instance_dec_party (request : Request.t) (x : Loaded.t) :
  Request.user request ∉ [OwnerProfile.user (Loaded.owner x);
                          CaregiverProfile.user (Loaded.caregiver x)]
  ↔ ¬ is_party_of request x.
Proof.
  unfold is_party_of. rewrite elem_of_cons, list_elem_of_singleton. reflexivity.
Qed.

Ltac action_run :=
  let x := fresh "x" in
  let Hv := fresh "Hv" in
  let Hpk := fresh "Hpk" in
  let Hrow := fresh "Hrow" in
  intros; unfold action_outcome, BookingViewSet_get_object, call;
  match goal with w : world _ |- _ => destruct w as [? ? ?] end;
  run_monad; rewrite get_object_visible;
  destruct (visible _ _ _) as [x |] eqn:Hv; [| reflexivity];
  destruct (visible_Some _ _ _ _ Hv) as (Hpk & Hrow & _);
  repeat case_decide; run_monad; try reflexivity; try contradiction;
  rewrite ?Hpk, ?change_status_run; cbn [mem db log];
  repeat case_decide; try contradiction;
  rewrite ?Hrow; run_monad; try reflexivity.

(** What the four actions do. *)
Lemma accept_run (request : Request.t) (pk : nat) (w : world S) :
  BookingViewSet_accept request pk w
  = action_outcome (is_caregiver_of request) "accepted" request pk w.
Proof. unfold BookingViewSet_accept, is_caregiver_of. action_run. Qed.

Lemma reject_run (request : Request.t) (pk : nat) (w : world S) :
  BookingViewSet_reject request pk w
  = action_outcome (is_caregiver_of request) "rejected" request pk w.
Proof. unfold BookingViewSet_reject, is_caregiver_of. action_run. Qed.

Lemma complete_run (request : Request.t) (pk : nat) (w : world S) :
  BookingViewSet_complete request pk w
  = action_outcome (is_caregiver_of request) "completed" request pk w.
Proof. unfold BookingViewSet_complete, is_caregiver_of. action_run. Qed.

Lemma cancel_run (request : Request.t) (pk : nat) (w : world S) :
  BookingViewSet_cancel request pk w
  = action_outcome (is_party_of request) "cancelled" request pk w.
Proof.
  unfold BookingViewSet_cancel. action_run;
    match goal with H : _ |- _ => apply instance_dec_party in H; contradiction
                  | H : ¬ _ ∉ _ |- _ => exfalso; apply H, instance_dec_party; assumption end.
Qed.

(** The outcomes of an action, one by one. *)
Lemma action_outcome_cases (may : Loaded.t → Prop) `{∀ x, Decision (may x)}
    (target : string) (request : Request.t) (pk : nat) (w : world S) :
  let r := action_outcome may target request pk w in
  mem r.2 = mem w
  ∧ ((db r.2 = db w
      ∧ ((r.1 = Ok HTTP_404_NOT_FOUND ∧ visible request (db w) pk = None)
         ∨ (∃ x, visible request (db w) pk = Some x ∧ ¬ may x
                 ∧ r.1 = Ok HTTP_403_FORBIDDEN)
         ∨ (∃ x, visible request (db w) pk = Some x ∧ may x
                 ∧ ¬ allowed_transition (Booking.status (Loaded.row x)) target
                 ∧ r.1 = Raise (InvalidTransition (Booking.status (Loaded.row x)) target))))
     ∨ (∃ x, visible request (db w) pk = Some x ∧ may x
             ∧ allowed_transition (Booking.status (Loaded.row x)) target
             ∧ r.1 = Ok (HTTP_200_OK target)
             ∧ db r.2 = DB.set_bookings
                          (<[pk := Booking.set_status target (Loaded.row x)]>
                             (DB.bookings (db w))) (db w))).
Proof.
  unfold action_outcome. cbn zeta.
  destruct (visible request (db w) pk) as [x |] eqn:Hv.
  2:{ cbn. split; [reflexivity |]. left. split; [reflexivity |]. left. auto. }
  destruct (decide (may x)) as [Hmay | Hmay].
  2:{ cbn. split; [reflexivity |]. left. split; [reflexivity |]. right. left. eauto. }
  pose proof (allowed_transitions_table (Booking.status (Loaded.row x)) target) as Ht.
  case_decide as Hin; cbn; (split; [reflexivity |]).
  - right. exists x. repeat split; try assumption; try reflexivity. now apply Ht.
  - left. split; [reflexivity |]. right. right. exists x.
    repeat split; try assumption. now rewrite <- Ht.
Qed.

End Views.

(** The caregiver of a visible booking is the caregiver row of the
    booking, its owner the owner profile with the booking's owner key. *)
Lemma visible_related (request : Request.t) (d : DB.t) (pk : nat) (x : Loaded.t) :
  visible request d pk = Some x →
  DB.bookings d !! pk = Some (Loaded.row x)
  ∧ OwnerProfile_by_pk d (Booking.owner (Loaded.row x)) = Some (Loaded.owner x)
  ∧ DB.caregiver_profiles d !! Booking.caregiver (Loaded.row x) = Some (Loaded.caregiver x).
Proof.
  intros Hv. destruct (visible_Some _ _ _ _ Hv) as (_ & Hrow & Hsel & _).
  destruct (select_related_pk _ _ _ _ Hsel) as (_ & _ & Ho & Hc). auto.
Qed.

(** X1. Accepting, rejecting and completing a booking are reserved to the
    user of its caregiver: a request of any other user is answered 403 or
    404 and writes nothing. *)
Theorem caregiver_actions_reserved {S : Type}
    (request : Request.t) (pk : nat) (w : world S)
    (b : Booking.t) (c : CaregiverProfile.t) :
  DB.bookings (db w) !! pk = Some b →
  DB.caregiver_profiles (db w) !! Booking.caregiver b = Some c →
  CaregiverProfile.user c ≠ Request.user request →
  ∀ r, r ∈ [BookingViewSet_accept request pk w;
            BookingViewSet_reject request pk w;
            BookingViewSet_complete request pk w] →
    (r.1 = Ok HTTP_403_FORBIDDEN ∨ r.1 = Ok HTTP_404_NOT_FOUND) ∧ r.2.(db) = db w.
Proof.
  intros Hb Hc Hne r Hr.
  assert (Hcases : ∃ target,
    r = action_outcome (is_caregiver_of request) target request pk w).
  { rewrite !elem_of_cons, elem_of_nil in Hr.
    destruct Hr as [-> | [-> | [-> | []]]]; eexists;
      [apply accept_run | apply reject_run | apply complete_run]. }
  destruct Hcases as (target & ->).
  assert (Hnot : ∀ x, visible request (db w) pk = Some x → ¬ is_caregiver_of request x).
  { intros x Hv Hmay. destruct (visible_related _ _ _ _ Hv) as (Hrow & _ & Hcx).
    assert (Loaded.row x = b) by congruence. subst b.
    assert (Loaded.caregiver x = c) by congruence. subst c.
    exact (Hne Hmay). }
  destruct (action_outcome_cases (is_caregiver_of request) target request pk w)
    as (_ & [(Hdb & [(Hres & _) | [(x & Hv & _ & Hres) | (x & Hv & Hmay & _)]])
            | (x & Hv & Hmay & _)]).
  - auto.
  - auto.
  - exfalso. exact (Hnot x Hv Hmay).
  - exfalso. exact (Hnot x Hv Hmay).
Qed.

(** X2. Cancelling is never answered 403: whoever sees the booking is its
    owner or its caregiver. A user who is neither is answered 404, and
    nothing is written. *)
Theorem cancel_never_forbidden {S : Type}
    (request : Request.t) (pk : nat) (w : world S) :
  let r := BookingViewSet_cancel request pk w in
  r.1 ≠ Ok HTTP_403_FORBIDDEN
  ∧ (∀ b o c,
       DB.bookings (db w) !! pk = Some b →
       OwnerProfile_by_pk (db w) (Booking.owner b) = Some o →
       DB.caregiver_profiles (db w) !! Booking.caregiver b = Some c →
       OwnerProfile.user o ≠ Request.user request →
       CaregiverProfile.user c ≠ Request.user request →
       r.1 = Ok HTTP_404_NOT_FOUND ∧ db r.2 = db w).
Proof.
  cbn zeta. rewrite cancel_run.
  destruct (action_outcome_cases (is_party_of request) "cancelled" request pk w)
    as (_ & Hcases).
  assert (Hparty : ∀ x, visible request (db w) pk = Some x → is_party_of request x).
  { intros x Hv. destruct (visible_Some _ _ _ _ Hv) as (_ & _ & _ & Hf).
    unfold is_party_of. destruct (bool_decide _); [right | left]; congruence. }
  split.
  - destruct Hcases as [(_ & [(Hr & _) | [(x & Hv & Hno & _) | (x & _ & _ & _ & Hr)]])
                       | (x & _ & _ & _ & Hr & _)]; try (rewrite Hr; discriminate).
    exfalso. exact (Hno (Hparty x Hv)).
  - intros b o c Hb Ho Hc Hno Hnc.
    assert (Hnone : visible request (db w) pk = None).
    { apply eq_None_not_Some. intros [x Hv].
      destruct (visible_related _ _ _ _ Hv) as (Hrow & Hox & Hcx).
      assert (Loaded.row x = b) by congruence. subst b.
      assert (Loaded.owner x = o) by congruence.
      assert (Loaded.caregiver x = c) by congruence. subst o c.
      destruct (Hparty x Hv) as [H | H]; congruence. }
    destruct Hcases as [(Hdb & [(Hr & _) | [(x & Hv & _) | (x & Hv & _)]])
                       | (x & Hv & _)]; try congruence.
    auto.
Qed.

(** X3. Without [as=caregiver] a booking is looked up among those the
    user owns: the four actions answer 404, and write nothing, for every
    user who is not the owner, the caregiver of the booking included. *)
Theorem actions_default_to_owner {S : Type}
    (request : Request.t) (pk : nat) (w : world S)
    (b : Booking.t) (o : OwnerProfile.t) :
  Request.query_as request ≠ Some "caregiver" →
  DB.bookings (db w) !! pk = Some b →
  OwnerProfile_by_pk (db w) (Booking.owner b) = Some o →
  OwnerProfile.user o ≠ Request.user request →
  ∀ r, r ∈ [BookingViewSet_accept request pk w;
            BookingViewSet_reject request pk w;
            BookingViewSet_cancel request pk w;
            BookingViewSet_complete request pk w] →
    r.1 = Ok HTTP_404_NOT_FOUND ∧ db r.2 = db w.
Proof.
  intros Has Hb Ho Hne r Hr.
  assert (Hnone : visible request (db w) pk = None).
  { apply eq_None_not_Some. intros [x Hv].
    destruct (visible_related _ _ _ _ Hv) as (Hrow & Hox & _).
    destruct (visible_Some _ _ _ _ Hv) as (_ & _ & _ & Hf).
    rewrite bool_decide_eq_false_2 in Hf by exact Has.
    assert (Loaded.row x = b) by congruence. subst b.
    assert (Loaded.owner x = o) by congruence. subst o. exact (Hne Hf). }
  rewrite !elem_of_cons, elem_of_nil in Hr.
  destruct Hr as [-> | [-> | [-> | [-> | []]]]];
    rewrite ?accept_run, ?reject_run, ?cancel_run, ?complete_run;
    unfold action_outcome; cbn zeta; rewrite Hnone; cbn; auto.
Qed.

(** ** Sequences of requests *)

Section Api.

Variable PLATFORM_FEE_PERCENT : Decimal.

(** What one request changes: the bookings or the reviews, as the step
    relations say; the ledger and the reference tables never. *)
Lemma api_step_cases (a : api) (d : DB.t) :
  let d' := api_step PLATFORM_FEE_PERCENT a d in
  DB.transaction_logs d' = DB.transaction_logs d
  ∧ DB.availabilities d' = DB.availabilities d
  ∧ DB.time_off d' = DB.time_off d
  ∧ ((DB.reviews d' = DB.reviews d ∧ bookings_step d d')
     ∨ (DB.bookings d' = DB.bookings d ∧ reviews_step d d')).
Proof.
  assert (Haction : ∀ (may : Loaded.t → Prop) `{∀ x, Decision (may x)} target request pk,
    let d' := db (action_outcome may target request pk (World () d [])).2 in
    DB.transaction_logs d' = DB.transaction_logs d
    ∧ DB.availabilities d' = DB.availabilities d
    ∧ DB.time_off d' = DB.time_off d
    ∧ ((DB.reviews d' = DB.reviews d ∧ bookings_step d d')
       ∨ (DB.bookings d' = DB.bookings d ∧ reviews_step d d'))).
  { intros may Hdec target request pk.
    destruct (action_outcome_cases may target request pk (World () d []))
      as (_ & [(Hdb & _) | (x & Hv & _ & Hallowed & _ & Hdb)]);
      cbn [db] in *; cbn zeta; rewrite Hdb.
    - repeat split; try reflexivity. left. split; [reflexivity |]. left. reflexivity.
    - destruct (visible_related _ _ _ _ Hv) as (Hrow & _).
      repeat split; try reflexivity. left. split; [reflexivity |].
      right. left. exists pk, (Loaded.row x), target. auto. }
  destruct a as [now user attrs | request pk | request pk | request pk | request pk
                | user data]; cbn [api_step]; unfold run.
  - destruct (create_booking_cases PLATFORM_FEE_PERCENT now user attrs (World () d []))
      as [(msg & _ & _ & Hdb & _) | (o & p & c & st & cs & Hok & _ & _ & Hdb)];
      cbn [db] in Hdb; cbn zeta; rewrite Hdb.
    + repeat split; try reflexivity. left. split; [reflexivity |]. left. reflexivity.
    + repeat split; try reflexivity. left. split; [reflexivity |].
      right. right. eexists. split; [reflexivity |].
      split; [reflexivity |]. split; [reflexivity |].
      pose proof (ok_available _ _ _ _ _ _ _ _ _ Hok) as Hav. cbn zeta in Hav.
      unfold created_booking;
        cbn [Booking.caregiver Booking.start_datetime Booking.end_datetime].
      tauto.
  - rewrite accept_run. apply Haction.
  - rewrite reject_run. apply Haction.
  - rewrite cancel_run. apply Haction.
  - rewrite complete_run. apply Haction.
  - rewrite create_review_run; cbn [mem db log]. cbn zeta.
    destruct (DB.bookings d !! ReviewSerializer.booking_pk data) as [booking |] eqn:Hb.
    2:{ cbn. repeat split; try reflexivity. left. split; [reflexivity |]. left. reflexivity. }
    case_decide as Hlo;
      [cbn; repeat split; try reflexivity; left; (split; [reflexivity |]); left; reflexivity |].
    case_decide as Hhi;
      [cbn; repeat split; try reflexivity; left; (split; [reflexivity |]); left; reflexivity |].
    case_decide as Hst;
      [cbn; repeat split; try reflexivity; left; (split; [reflexivity |]); left; reflexivity |].
    pose proof (has_review_spec d (ReviewSerializer.booking_pk data)) as Hrev.
    destruct (qs_exists _).
    { cbn. repeat split; try reflexivity. left. split; [reflexivity |]. left. reflexivity. }
    assert (Hstep : ∀ d', DB.bookings d' = DB.bookings d →
      DB.reviews d' = DB.reviews d ++ [review_of user data booking] → reviews_step d d').
    { intros d' _ Hr. right. exists (review_of user data booking), booking.
      split; [exact Hr |]. split; [exact Hb |]. split.
      { destruct (decide (Booking.status booking = Booking.STATUS_COMPLETED));
          [assumption | contradiction]. }
      split; [| reflexivity].
      intros Hhas. apply Hrev in Hhas. discriminate. }
    destruct (DB.caregiver_profiles d !! Booking.caregiver booking); cbn;
      repeat split; try reflexivity; right; (split; [reflexivity |]);
      apply Hstep; reflexivity.
Qed.

Lemma moved_active (s s' : string) :
  allowed_transition s s' → (s' = "pending" ∨ s' = "accepted") → s = "pending".
Proof.
  intros [[-> _] | [-> [-> | ->]]] [Hs | Hs]; try reflexivity; discriminate.
Qed.

Lemma terminal_spec (s : string) : terminal s ↔ s ≠ "pending" ∧ s ≠ "accepted".
Proof.
  unfold terminal, allowed_transition. split.
  - intros H. split; intros ->.
    + apply (H "accepted"). left. auto.
    + apply (H "completed"). right. auto.
  - intros [H1 H2] to [[-> _] | [-> _]]; congruence.
Qed.

(** *** The statuses follow the table *)

Lemma lifecycle_kept_refl (l : list Booking.t) : lifecycle_kept l l.
Proof. intros i b Hb. exists b. repeat split; [assumption | constructor]. Qed.


Lemma bookings_step_lifecycle (d d' : DB.t) :
  bookings_step d d' → lifecycle_kept (DB.bookings d) (DB.bookings d').
Proof.
  intros [-> | [(pk & row & target & Hrow & Hallowed & ->) | (b & -> & _)]].
  - apply lifecycle_kept_refl.
  - pose proof (lookup_lt_Some _ _ _ Hrow) as Hlt. intros i x Hx.
    destruct (decide (i = pk)) as [-> | Hne].
    + exists (Booking.set_status target row).
      rewrite list_lookup_insert_eq by assumption.
      assert (x = row) by congruence. subst x.
      repeat split. cbn. now apply rtc_once.
    + exists x. rewrite list_lookup_insert_ne by congruence.
      repeat split; [assumption | constructor].
  - intros i x Hx. exists x. split; [now apply lookup_app_l_Some |].
    split; [reflexivity | constructor].
Qed.

Lemma api_step_lifecycle (a : api) (d : DB.t) :
  lifecycle_kept (DB.bookings d) (DB.bookings (api_step PLATFORM_FEE_PERCENT a d)).
Proof.
  destruct (api_step_cases a d) as (_ & _ & _ & [(_ & Hstep) | (Hb & _)]).
  - now apply bookings_step_lifecycle.
  - rewrite Hb. apply lifecycle_kept_refl.
Qed.


(** *** Active bookings of a caregiver never overlap *)

Lemma bookings_step_no_overlap (d d' : DB.t) :
  bookings_step d d' → no_overlap d → no_overlap d'.
Proof.
  intros [Heq | [(pk & row & target & Hrow & Hallowed & Heq) | (b & Heq & Hst & _ & Hfree)]]
    Hno i j bi bj Hij Hi Hj Hcg Hai Haj; rewrite Heq in Hi, Hj.
  - exact (Hno i j bi bj Hij Hi Hj Hcg Hai Haj).
  - assert (Hback : ∀ k x', <[pk := Booking.set_status target row]> (DB.bookings d) !! k
                              = Some x' →
        ∃ x, DB.bookings d !! k = Some x
             ∧ Booking.caregiver x' = Booking.caregiver x
             ∧ Booking.start_datetime x' = Booking.start_datetime x
             ∧ Booking.end_datetime x' = Booking.end_datetime x
             ∧ (active x' → active x)).
    { intros k x' Hk. apply list_lookup_insert_Some in Hk as [(-> & <- & _) | (_ & Hk)].
      - exists row. repeat split; try assumption.
        intros Hact. left. exact (moved_active _ _ Hallowed Hact).
      - exists x'. auto. }
    destruct (Hback i bi Hi) as (xi & Hxi & Hci & Hsi & Hei & Hacti).
    destruct (Hback j bj Hj) as (xj & Hxj & Hcj & Hsj & Hej & Hactj).
    rewrite Hsi, Hei, Hsj, Hej.
    apply (Hno i j xi xj Hij Hxi Hxj); [congruence | auto | auto].
  - assert (Hnew : ∀ k x, DB.bookings d !! k = Some x →
        Booking.caregiver x = Booking.caregiver b → active x →
        ¬ (Booking.start_datetime x < Booking.end_datetime b
           ∧ Booking.start_datetime b < Booking.end_datetime x)).
    { intros k x Hk Hc Hact [H1 H2]. apply Hfree. exists x.
      split; [eapply list_elem_of_lookup_2; eassumption |]. auto. }
    apply lookup_app_Some in Hi as [Hi | [Hleni Hi]];
      apply lookup_app_Some in Hj as [Hj | [Hlenj Hj]].
    + exact (Hno i j bi bj Hij Hi Hj Hcg Hai Haj).
    + apply list_lookup_singleton_Some in Hj as [_ <-].
      exact (Hnew i bi Hi Hcg Hai).
    + apply list_lookup_singleton_Some in Hi as [_ <-].
      intros [H1 H2]. apply (Hnew j bj Hj (eq_sym Hcg) Haj). auto.
    + apply list_lookup_singleton_Some in Hi as [Hi0 _].
      apply list_lookup_singleton_Some in Hj as [Hj0 _]. lia.
Qed.

Lemma no_overlap_bookings (d d' : DB.t) :
  DB.bookings d' = DB.bookings d → no_overlap d → no_overlap d'.
Proof. unfold no_overlap. intros ->. auto. Qed.

Lemma api_step_no_overlap (a : api) (d : DB.t) :
  no_overlap d → no_overlap (api_step PLATFORM_FEE_PERCENT a d).
Proof.
  destruct (api_step_cases a d) as (_ & _ & _ & [(_ & Hstep) | (Hb & _)]).
  - now apply bookings_step_no_overlap.
  - now apply no_overlap_bookings.
Qed.

(** *** Reviews stay sound *)

Lemma api_step_reviews_sound (a : api) (d : DB.t) :
  reviews_sound d → reviews_sound (api_step PLATFORM_FEE_PERCENT a d).
Proof.
  intros [Hnodup Hall].
  destruct (api_step_cases a d) as (_ & _ & _ & [(Hr & Hstep) | (Hb & Hstep)]).
  - split; [rewrite Hr; exact Hnodup |]. rewrite Hr. intros r Hin.
    destruct (Hall r Hin) as (b & Hb & Hst & Ht).
    destruct Hstep as [-> | [(pk & row & target & Hrow & Hallowed & ->) | (x & -> & _)]].
    + eauto.
    + destruct (decide (Review.booking r = pk)) as [Heq | Hne].
      * exfalso. rewrite Heq in Hb. assert (row = b) by congruence. subst row.
        rewrite Hst in Hallowed.
        destruct Hallowed as [[? _] | [? _]]; discriminate.
      * exists b. rewrite list_lookup_insert_ne by congruence. auto.
    + exists b. split; [now apply lookup_app_l_Some | auto].
  - destruct Hstep as [Hr | (r & b & Hr & Hbr & Hst & Hnone & Ht)].
    + unfold reviews_sound. rewrite Hr, Hb. split; assumption.
    + unfold reviews_sound. rewrite Hr, Hb. split.
      * rewrite fmap_app. apply NoDup_app. split; [assumption |]. split.
        -- intros k Hk Hk'. apply list_elem_of_singleton in Hk'. subst k.
           apply list_elem_of_fmap in Hk as (r' & Hkr & Hr').
           apply Hnone. exists r'. auto.
        -- apply NoDup_singleton.
      * intros r' Hin. apply elem_of_app in Hin as [Hin | Hin].
        -- exact (Hall r' Hin).
        -- apply list_elem_of_singleton in Hin. subst r'. eauto.
Qed.

End Api.

(** ** Properties of the views and of sequences of requests *)

(** What [is_caregiver_available] answers, in terms of the three checks. *)
Lemma is_caregiver_available_true {S : Type}
    (caregiver : Z) (start end_ : datetime) (w : world S) :
  (is_caregiver_available caregiver start end_ w).1 = Ok true
  ↔ weekly_window_ok (db w) caregiver start end_
    ∧ ¬ on_time_off (db w) caregiver start end_
    ∧ ¬ overlaps_booking (db w) caregiver start end_.
Proof.
  rewrite is_caregiver_available_run, <- available_spec.
  destruct (negb _); [cbn; split; congruence |].
  destruct (check_time_off _ _ _ _); [cbn; split; congruence |].
  destruct (negb _); cbn; split; congruence.
Qed.

(** A caregiver sees a booking of theirs under [as=caregiver]. *)
Lemma visible_caregiver (request : Request.t) (d : DB.t) (pk : nat)
    (b : Booking.t) (x : Loaded.t) :
  Request.query_as request = Some "caregiver" →
  Request.query_status request = None →
  DB.bookings d !! pk = Some b →
  select_related d pk b = Some x →
  CaregiverProfile.user (Loaded.caregiver x) = Request.user request →
  visible request d pk = Some x.
Proof.
  intros Has Hst Hb Hx Hu. unfold visible. rewrite Hb; cbn. rewrite Hx; cbn.
  rewrite Hst. rewrite (bool_decide_eq_true_2 _ Has).
  rewrite (bool_decide_eq_true_2 _ Hu). reflexivity.
Qed.

(** A change of status leaves the joins of a booking as they were. *)
Lemma select_related_set_status (d : DB.t) (l : list Booking.t) (pk : nat)
    (b : Booking.t) (x : Loaded.t) (s : string) :
  select_related d pk b = Some x →
  select_related (DB.set_bookings l d) pk (Booking.set_status s b)
  = Some (Loaded.mk pk (Booking.set_status s b) (Loaded.owner x) (Loaded.caregiver x)).
Proof.
  unfold select_related, OwnerProfile_by_pk; cbn.
  destruct (head _) as [o |]; [| discriminate]; cbn.
  destruct (DB.caregiver_profiles d !! _) as [c |]; [| discriminate]; cbn.
  destruct (DB.pets d !! _); [| discriminate]; cbn.
  destruct (DB.service_types d !! _); [| discriminate]; cbn.
  intros H. injection H as <-. reflexivity.
Qed.

(** X4. The caregiver of a pending booking accepts it, then completes it:
    each action answers 200 with the new status and stores it; once the
    booking is completed, each of the four actions raises the
    invalid-transition error and writes nothing. *)
Theorem accept_then_complete {S : Type}
    (request : Request.t) (pk : nat) (w : world S) (b : Booking.t) (x : Loaded.t) :
  Request.query_as request = Some "caregiver" →
  Request.query_status request = None →
  DB.bookings (db w) !! pk = Some b →
  select_related (db w) pk b = Some x →
  CaregiverProfile.user (Loaded.caregiver x) = Request.user request →
  Booking.status b = "pending" →
  let r1 := BookingViewSet_accept request pk w in
  let r2 := BookingViewSet_complete request pk r1.2 in
  r1.1 = Ok (HTTP_200_OK "accepted")
  ∧ DB.bookings (db r1.2) !! pk = Some (Booking.set_status "accepted" b)
  ∧ r2.1 = Ok (HTTP_200_OK "completed")
  ∧ DB.bookings (db r2.2) !! pk = Some (Booking.set_status "completed" b)
  ∧ ∀ r, r ∈ [BookingViewSet_accept request pk r2.2;
              BookingViewSet_reject request pk r2.2;
              BookingViewSet_cancel request pk r2.2;
              BookingViewSet_complete request pk r2.2] →
      (∃ target, r.1 = Raise (InvalidTransition "completed" target)) ∧ db r.2 = db r2.2.
Proof.
  intros Has Hst Hb Hx Hu Hpending r1 r2.
  pose proof (lookup_lt_Some _ _ _ Hb) as Hlt.
  destruct (select_related_pk _ _ _ _ Hx) as (_ & Hrow & _).
  (* accept *)
  pose proof (visible_caregiver request (db w) pk b x Has Hst Hb Hx Hu) as Hv.
  assert (H1 : r1 = (Ok (HTTP_200_OK "accepted"),
                     World (mem w)
                       (DB.set_bookings
                          (<[pk := Booking.set_status "accepted" b]> (DB.bookings (db w)))
                          (db w))
                       ((log w ++ [SELECT TBooking]) ++ [UPDATE TBooking]))).
  { subst r1. rewrite accept_run. unfold action_outcome. cbn zeta. rewrite Hv.
    rewrite decide_True by exact Hu. rewrite Hrow, Hpending.
    rewrite decide_True by (apply allowed_transitions_table; left; auto). reflexivity. }
  (* complete *)
  set (d1 := DB.set_bookings
               (<[pk := Booking.set_status "accepted" b]> (DB.bookings (db w))) (db w)).
  set (x1 := Loaded.mk pk (Booking.set_status "accepted" b) (Loaded.owner x)
               (Loaded.caregiver x)).
  assert (Hb1 : DB.bookings d1 !! pk = Some (Booking.set_status "accepted" b)).
  { subst d1; cbn. now apply list_lookup_insert_eq. }
  assert (Hv1 : visible request d1 pk = Some x1).
  { apply (visible_caregiver request d1 pk (Booking.set_status "accepted" b));
      try assumption. now apply select_related_set_status. }
  assert (H2 : r2 = (Ok (HTTP_200_OK "completed"),
                     World (mem w)
                       (DB.set_bookings
                          (<[pk := Booking.set_status "completed" b]> (DB.bookings d1)) d1)
                       ((((log w ++ [SELECT TBooking]) ++ [UPDATE TBooking])
                           ++ [SELECT TBooking]) ++ [UPDATE TBooking]))).
  { subst r2. rewrite H1. cbn [snd]. rewrite complete_run. unfold action_outcome.
    cbn zeta. cbn [db mem log]. fold d1. rewrite Hv1.
    rewrite decide_True by exact Hu. cbn [Loaded.row x1 Booking.status Booking.set_status].
    rewrite decide_True by (apply allowed_transitions_table; right; auto). reflexivity. }
  set (d2 := DB.set_bookings
               (<[pk := Booking.set_status "completed" b]> (DB.bookings d1)) d1) in *.
  set (x2 := Loaded.mk pk (Booking.set_status "completed" b) (Loaded.owner x)
               (Loaded.caregiver x)).
  assert (Hb2 : DB.bookings d2 !! pk = Some (Booking.set_status "completed" b)).
  { subst d2; cbn. apply list_lookup_insert_eq. subst d1; cbn.
    now rewrite length_insert. }
  assert (Hv2 : visible request d2 pk = Some x2).
  { apply (visible_caregiver request d2 pk (Booking.set_status "completed" b));
      try assumption.
    apply (select_related_set_status d1 _ pk (Booking.set_status "accepted" b) x1
             "completed").
    now apply select_related_set_status. }
  split; [rewrite H1; reflexivity |]. split; [rewrite H1; exact Hb1 |].
  split; [rewrite H2; reflexivity |]. split; [rewrite H2; exact Hb2 |].
  intros r Hr. rewrite H2 in Hr |- *. cbn [snd db] in *.
  assert (Hcases : ∃ (may : Loaded.t → Prop) (Hdec : ∀ y, Decision (may y)) target,
    may x2 ∧ r = action_outcome may target request pk
                   (World (mem w) d2
                      ((((log w ++ [SELECT TBooking]) ++ [UPDATE TBooking])
                          ++ [SELECT TBooking]) ++ [UPDATE TBooking]))).
  { rewrite !elem_of_cons, elem_of_nil in Hr.
    destruct Hr as [-> | [-> | [-> | [-> | []]]]].
    - exists (is_caregiver_of request), _, "accepted". split; [exact Hu | apply accept_run].
    - exists (is_caregiver_of request), _, "rejected". split; [exact Hu | apply reject_run].
    - exists (is_party_of request), _, "cancelled".
      split; [right; symmetry; exact Hu | apply cancel_run].
    - exists (is_caregiver_of request), _, "completed". split; [exact Hu | apply complete_run]. }
  destruct Hcases as (may & Hdec & target & Hmay & ->).
  unfold action_outcome. cbn zeta. cbn [db mem log]. rewrite Hv2.
  rewrite decide_True by exact Hmay.
  cbn [Loaded.row x2 Booking.status Booking.set_status].
  rewrite decide_False.
  - cbn. split; [eauto | reflexivity].
  - rewrite allowed_transitions_table. intros [[? _] | [? _]]; discriminate.
Qed.


(** X6. No sequence of requests that create a booking, accept, reject,
    cancel or complete one, or create a review, pays a booking: the
    ledger stays as it is, a stored booking keeps its payment status, and
    a booking created on the way is pending payment. *)
Theorem api_never_pays (PLATFORM_FEE_PERCENT : Decimal) (l : list api) (d : DB.t) :
  let d' := api_run PLATFORM_FEE_PERCENT l d in
  DB.transaction_logs d' = DB.transaction_logs d
  ∧ ∀ i b', DB.bookings d' !! i = Some b' →
      (∃ b, DB.bookings d !! i = Some b
            ∧ Booking.payment_status b' = Booking.payment_status b)
      ∨ (DB.bookings d !! i = None ∧ Booking.payment_status b' = "pending").
Proof.
  cbn zeta. revert d. induction l as [| a l IH]; intros d.
  { split; [reflexivity |]. intros i b' Hb'. left. eauto. }
  change (api_run PLATFORM_FEE_PERCENT (a :: l) d)
    with (api_run PLATFORM_FEE_PERCENT l (api_step PLATFORM_FEE_PERCENT a d)).
  destruct (IH (api_step PLATFORM_FEE_PERCENT a d)) as [Hlog Hpay].
  destruct (api_step_cases PLATFORM_FEE_PERCENT a d) as (Hlog1 & _ & _ & Hstep).
  split; [congruence |]. intros i b' Hb'.
  assert (Hone : ∀ x, DB.bookings (api_step PLATFORM_FEE_PERCENT a d) !! i = Some x →
    (∃ b, DB.bookings d !! i = Some b
          ∧ Booking.payment_status x = Booking.payment_status b)
    ∨ (DB.bookings d !! i = None ∧ Booking.payment_status x = "pending")).
  { intros x Hx.
    destruct Hstep as [(_ & [Heq | [(pk & row & target & Hrow & _ & Heq)
                                   | (nb & Heq & _ & Hp & _)]]) | (Heq & _)];
      rewrite Heq in Hx.
    - left. eauto.
    - apply list_lookup_insert_Some in Hx as [(-> & <- & _) | (_ & Hx)]; left; eauto.
    - apply lookup_app_Some in Hx as [Hx | [Hlen Hx]]; [left; eauto |].
      apply list_lookup_singleton_Some in Hx as [_ <-].
      right. split; [now apply lookup_ge_None | exact Hp].
    - left. eauto. }
  assert (Hgrow : ∀ j, DB.bookings d !! j = None ∨ is_Some (DB.bookings d !! j)).
  { intros j. destruct (DB.bookings d !! j); eauto. }
  destruct (Hpay i b' Hb') as [(x & Hx & Hpx) | (Hnone & Hp)].
  - destruct (Hone x Hx) as [(b & Hb & Hpb) | (Hnone & Hp)].
    + left. exists b. split; [assumption | congruence].
    + right. split; [assumption | congruence].
  - right. split; [| assumption].
    destruct (DB.bookings d !! i) as [b |] eqn:Hb; [| reflexivity]. exfalso.
    destruct (api_step_lifecycle PLATFORM_FEE_PERCENT a d i b Hb) as (x & Hx & _).
    congruence.
Qed.

(** X7. If no two active bookings of one caregiver overlap, none do after
    any sequence of requests that create a booking, accept, reject,
    cancel or complete one, or create a review. *)
Theorem no_overlap_invariant (PLATFORM_FEE_PERCENT : Decimal) (l : list api) (d : DB.t) :
  no_overlap d → no_overlap (api_run PLATFORM_FEE_PERCENT l d).
Proof.
  revert d. induction l as [| a l IH]; intros d Hno; [exact Hno |].
  change (api_run PLATFORM_FEE_PERCENT (a :: l) d)
    with (api_run PLATFORM_FEE_PERCENT l (api_step PLATFORM_FEE_PERCENT a d)).
  apply IH. now apply api_step_no_overlap.
Qed.

(** X8. Once a booking is created, a request for the same caregiver whose
    time window overlaps it is rejected with a validation error and
    writes nothing. *)
Theorem overlapping_request_rejected {S : Type}
    (PLATFORM_FEE_PERCENT : Decimal) (now1 now2 : datetime) (user1 user2 : Z)
    (attrs1 attrs2 : BookingCreateSerializer.attrs) (w : world S)
    (pk : nat) (b : Booking.t) :
  let start1 := BookingCreateSerializer.start_datetime attrs1 in
  let end1 := start1 + timedelta_minutes (BookingCreateSerializer.duration_minutes attrs1) in
  let start2 := BookingCreateSerializer.start_datetime attrs2 in
  let end2 := start2 + timedelta_minutes (BookingCreateSerializer.duration_minutes attrs2) in
  let r1 := create_booking PLATFORM_FEE_PERCENT now1 user1 attrs1 w in
  let r2 := create_booking PLATFORM_FEE_PERCENT now2 user2 attrs2 r1.2 in
  r1.1 = Ok (pk, b) →
  BookingCreateSerializer.caregiver_id attrs2 = BookingCreateSerializer.caregiver_id attrs1 →
  start1 < end2 → start2 < end1 →
  is_validation_error r2.1 ∧ db r2.2 = db r1.2.
Proof.
  intros start1 end1 start2 end2 r1 r2 Hok Hcg H12 H21.
  destruct (create_booking_cases PLATFORM_FEE_PERCENT now1 user1 attrs1 w)
    as [(msg & Hr & _) | (o & p & c & st & cs & _ & Hr & _ & Hdb)];
    fold r1 in Hr; [congruence |]. fold r1 in Hdb.
  destruct (create_booking_cases PLATFORM_FEE_PERCENT now2 user2 attrs2 r1.2)
    as [(msg & Hr2 & _ & Hdb2 & _) | (o' & p' & c' & st' & cs' & Hreq & _)];
    fold r2 in Hr2 || idtac.
  - fold r2 in Hdb2. split; [exists msg; exact Hr2 | exact Hdb2].
  - exfalso. pose proof (ok_available _ _ _ _ _ _ _ _ _ Hreq) as (_ & _ & Hfree).
    apply Hfree. exists (created_booking PLATFORM_FEE_PERCENT attrs1 o cs).
    rewrite Hdb. cbn [DB.bookings DB.set_bookings].
    split; [apply elem_of_app; right; apply list_elem_of_singleton; reflexivity |].
    unfold created_booking; cbn. repeat split; try (symmetry; exact Hcg); auto.
Qed.

(** X9. Cancelling frees the slot: when a window passes the two first
    checks and only the booking that is cancelled stood in its way, the
    caregiver is available for it once the cancellation is answered 200. *)
Theorem cancel_frees_slot {S : Type}
    (request : Request.t) (pk : nat) (w : world S)
    (caregiver : Z) (start end_ : datetime) :
  let r := BookingViewSet_cancel request pk w in
  r.1 = Ok (HTTP_200_OK "cancelled") →
  weekly_window_ok (db w) caregiver start end_ →
  ¬ on_time_off (db w) caregiver start end_ →
  (∀ j bj, DB.bookings (db w) !! j = Some bj →
     Booking.caregiver bj = caregiver → active bj →
     Booking.start_datetime bj < end_ → start < Booking.end_datetime bj → j = pk) →
  (is_caregiver_available caregiver start end_ r.2).1 = Ok true.
Proof.
  intros r Hok Hwin Hoff Honly. apply is_caregiver_available_true.
  subst r. rewrite cancel_run in *.
  destruct (action_outcome_cases (is_party_of request) "cancelled" request pk w)
    as (_ & [(_ & [(Hr & _) | [(x & _ & _ & Hr) | (x & _ & _ & _ & Hr)]])
            | (x & Hv & _ & _ & _ & Hdb)]); try congruence.
  rewrite Hdb. split; [exact Hwin |]. split; [exact Hoff |].
  intros (b' & Hin & Hc & Hact & H1 & H2). cbn [DB.bookings DB.set_bookings] in Hin.
  apply list_elem_of_lookup_1 in Hin as (j & Hj).
  apply list_lookup_insert_Some in Hj as [(-> & <- & _) | (Hne & Hj)].
  - cbn in Hact. destruct Hact; discriminate.
  - apply Hne. symmetry. exact (Honly j b' Hj Hc Hact H1 H2).
Qed.

(** X10. Availability is monotone in the tables it reads: with every
    availability kept, no time off added and no active booking added, a
    window that was free stays free. *)
Theorem availability_monotone {S : Type}
    (caregiver : Z) (start end_ : datetime) (w w' : world S) :
  (∀ a, a ∈ DB.availabilities (db w) → a ∈ DB.availabilities (db w')) →
  (∀ o, o ∈ DB.time_off (db w') → o ∈ DB.time_off (db w)) →
  (∀ b, b ∈ DB.bookings (db w') → active b → b ∈ DB.bookings (db w)) →
  (is_caregiver_available caregiver start end_ w).1 = Ok true →
  (is_caregiver_available caregiver start end_ w').1 = Ok true.
Proof.
  intros Hav Hoff Hbk. rewrite !is_caregiver_available_true.
  intros ((a & Ha & Hrest) & Hno_off & Hno_bk). split; [| split].
  - exists a. split; [now apply Hav | exact Hrest].
  - intros (o & Ho & Hrest'). apply Hno_off. exists o. split; [now apply Hoff | exact Hrest'].
  - intros (b & Hb & Hc & Hact & Hrest'). apply Hno_bk. exists b.
    split; [now apply Hbk | auto].
Qed.

(** X11. If every review is the only one of its booking, a completed
    booking whose caregiver it targets, this is so after any sequence of
    requests that create a booking, accept, reject, cancel or complete
    one, or create a review. *)
Theorem reviews_stay_sound (PLATFORM_FEE_PERCENT : Decimal) (l : list api) (d : DB.t) :
  reviews_sound d → reviews_sound (api_run PLATFORM_FEE_PERCENT l d).
Proof.
  revert d. induction l as [| a l IH]; intros d Hs; [exact Hs |].
  change (api_run PLATFORM_FEE_PERCENT (a :: l) d)
    with (api_run PLATFORM_FEE_PERCENT l (api_step PLATFORM_FEE_PERCENT a d)).
  apply IH. now apply api_step_reviews_sound.
Qed.

(** ** The management command *)

Section Command.






End Command.


(** ** The order of the commission *)

Module RoundingFacts.
Import Decimal DecimalFacts.

Lemma round_half_even_1 (n : Z) : round_half_even n 1 = n.
Proof. unfold round_half_even. now rewrite Z.div_1_r, Z.mod_1_r. Qed.

Lemma round_half_even_0 (d : Z) : 0 < d → round_half_even 0 d = 0.
Proof.
  intros Hd. unfold round_half_even. rewrite Z.div_0_l, Z.mod_0_l by lia.
  destruct (Z.ltb_spec (2 * 0) d); [reflexivity | lia].
Qed.

Lemma round_half_even_scale (n d f : Z) :
  0 < d → 0 < f → round_half_even (n * f) (d * f) = round_half_even n d.
Proof.
  intros Hd Hf. unfold round_half_even.
  rewrite Z.div_mul_cancel_r by lia.
  rewrite Z.mul_mod_distr_r by lia.
  destruct (Z.ltb_spec (2 * (n mod d)) d), (Z.ltb_spec (2 * (n mod d * f)) (d * f));
    try nia; try reflexivity.
  destruct (Z.ltb_spec d (2 * (n mod d))), (Z.ltb_spec (d * f) (2 * (n mod d * f)));
    try nia; reflexivity.
Qed.

Lemma round_half_even_mono (n m d : Z) :
  0 < d → n ≤ m → round_half_even n d ≤ round_half_even m d.
Proof.
  intros Hd Hnm. unfold round_half_even.
  pose proof (Z.div_mod n d ltac:(lia)) as Hn.
  pose proof (Z.div_mod m d ltac:(lia)) as Hm.
  pose proof (Z.mod_pos_bound n d Hd) as Hrn.
  pose proof (Z.mod_pos_bound m d Hd) as Hrm.
  pose proof (Z.div_le_mono n m d Hd Hnm) as Hq.
  destruct (Z.eq_dec (n / d) (m / d)) as [Heq | Hne].
  - rewrite Heq in *.
    destruct (Z.ltb_spec (2 * (n mod d)) d), (Z.ltb_spec (2 * (m mod d)) d),
      (Z.ltb_spec d (2 * (n mod d))), (Z.ltb_spec d (2 * (m mod d))),
      (Z.even (m / d)); lia.
  - destruct (Z.ltb_spec (2 * (n mod d)) d), (Z.ltb_spec (2 * (m mod d)) d),
      (Z.ltb_spec d (2 * (n mod d))), (Z.ltb_spec d (2 * (m mod d))),
      (Z.even (m / d)), (Z.even (n / d)); lia.
Qed.

(** The coefficient of a quantized decimal, from the coefficient of the
    decimal at any smaller exponent. *)
Lemma quantize_coef (d q : t) (e0 : Z) :
  e0 ≤ expo d → e0 ≤ expo q →
  coef (quantize d q) = round_half_even (scaled d e0) (10 ^ (expo q - e0)).
Proof.
  intros Hd Hq. unfold quantize, scaled.
  destruct (Z.leb_spec (expo q) (expo d)) as [Hle | Hlt]; cbn [coef].
  - replace (expo d - e0) with ((expo d - expo q) + (expo q - e0)) by lia.
    rewrite Z.pow_add_r, Z.mul_assoc by lia.
    rewrite <- (Z.mul_1_l (10 ^ (expo q - e0))) at 2.
    rewrite round_half_even_scale by (try apply pow10_pos; lia).
    now rewrite round_half_even_1.
  - replace (expo q - e0) with ((expo q - expo d) + (expo d - e0)) by lia.
    rewrite Z.pow_add_r by lia.
    now rewrite round_half_even_scale by (apply pow10_pos; lia).
Qed.

Lemma leb_scaled (a b : t) (e0 : Z) :
  e0 ≤ expo a → e0 ≤ expo b → leb a b = true ↔ scaled a e0 ≤ scaled b e0.
Proof.
  intros Ha Hb. rewrite leb_toQ.
  rewrite (toQ_scaled a e0), (toQ_scaled b e0) by assumption.
  rewrite Qmult_le_r by apply Qpow10_pos. now rewrite <- Zle_Qle.
Qed.

Lemma quantize_mono (a b q : t) :
  leb a b = true → leb (quantize a q) (quantize b q) = true.
Proof.
  intros Hab.
  set (e0 := Z.min (Z.min (expo a) (expo b)) (expo q)).
  apply (leb_scaled _ _ (expo q)); rewrite ?expo_quantize; try lia.
  unfold scaled. rewrite !expo_quantize, Z.sub_diag, !Z.mul_1_r.
  rewrite (quantize_coef a q e0), (quantize_coef b q e0) by lia.
  apply round_half_even_mono; [apply pow10_pos; lia |].
  apply (leb_scaled a b e0); [lia | lia | exact Hab].
Qed.

Lemma mul_mono (a b p : t) :
  leb zero p = true → leb a b = true → leb (mul a p) (mul b p) = true.
Proof.
  rewrite !leb_toQ, !toQ_mul, toQ_zero. intros Hp Hab.
  now apply Qmult_le_compat_r.
Qed.

End RoundingFacts.

(** X13. With a fee rate that is not negative, the platform fee never
    decreases when the amount grows, and it is not negative for an amount
    that is not. *)
Theorem platform_fee_monotone (PLATFORM_FEE_PERCENT amount1 amount2 : Decimal) :
  Decimal.leb Decimal.zero PLATFORM_FEE_PERCENT = true →
  Decimal.leb amount1 amount2 = true →
  Decimal.leb (compute_commission PLATFORM_FEE_PERCENT amount1).1
    (compute_commission PLATFORM_FEE_PERCENT amount2).1 = true
  ∧ (Decimal.leb Decimal.zero amount1 = true →
     Decimal.leb Decimal.zero (compute_commission PLATFORM_FEE_PERCENT amount1).1 = true).
Proof.
  intros HP H12. unfold compute_commission; cbn [fst]. split.
  - apply RoundingFacts.quantize_mono, RoundingFacts.mul_mono; assumption.
  - intros H0.
    pose proof (RoundingFacts.quantize_mono _ _ Decimal.cent
                  (RoundingFacts.mul_mono _ _ _ HP H0)) as Hq.
    apply DecimalFacts.leb_toQ in Hq. apply DecimalFacts.leb_toQ.
    rewrite DecimalFacts.toQ_zero.
    assert (Hz : (Decimal.toQ (Decimal.quantize
                    (Decimal.mul Decimal.zero PLATFORM_FEE_PERCENT) Decimal.cent) == 0)%Q).
    { unfold Decimal.toQ.
      rewrite (RoundingFacts.quantize_coef _ Decimal.cent
                 (Z.min (Decimal.expo PLATFORM_FEE_PERCENT) (-2)))
        by (cbn [Decimal.mul Decimal.zero Decimal.cent Decimal.expo]; lia).
      unfold Decimal.scaled; cbn [Decimal.mul Decimal.zero Decimal.coef].
      rewrite Z.mul_0_l.
      change (0 * 10 ^ (0 + Decimal.expo PLATFORM_FEE_PERCENT
                        - Z.min (Decimal.expo PLATFORM_FEE_PERCENT) (-2))) with 0.
      rewrite RoundingFacts.round_half_even_0
        by (apply DecimalFacts.pow10_pos; cbn [Decimal.cent Decimal.expo]; lia).
      ring. }
    rewrite Hz in Hq. exact Hq.
Qed.

(** ** The ledger and the columns of a booking, under the operations of
    the core *)

Section Ledger.

Variable PLATFORM_FEE_PERCENT : Decimal.

(** An operation leaves the ledger as it is, or is a payment that adds
    its entry. *)
Lemma run_op_ledger (o : op) (d : DB.t) :
  DB.transaction_logs (run_op PLATFORM_FEE_PERCENT o d) = DB.transaction_logs d
  ∨ ∃ pk self c,
      o = OpMarkPaid pk self
      ∧ DB.transaction_logs (run_op PLATFORM_FEE_PERCENT o d)
        = DB.transaction_logs d ++ [payout_entry pk self c].
Proof.
  destruct o as [now user attrs | pk self new_status | pk self | user data];
    cbn [run_op]; unfold run.
  - left.
    destruct (create_booking_cases PLATFORM_FEE_PERCENT now user attrs (World () d []))
      as [(msg & _ & _ & Hdb & _) | (o & p & c & st & cs & _ & _ & _ & Hdb)];
      cbn [db] in Hdb; rewrite Hdb; reflexivity.
  - left. rewrite change_status_run; cbn [mem db log].
    case_decide; [reflexivity |].
    destruct (DB.bookings d !! pk); reflexivity.
  - rewrite mark_paid_run; cbn [mem db log].
    case_decide; [now left |].
    destruct (DB.bookings d !! pk) as [row |]; cbn; [| now left].
    destruct (DB.caregiver_profiles d !! _) as [c |]; cbn; [| now left].
    right. exists pk, self, c. split; reflexivity.
  - left. rewrite create_review_run; cbn [mem db log]. cbn zeta.
    destruct (DB.bookings d !! _); [| reflexivity].
    repeat (case_decide; [reflexivity |]).
    destruct (qs_exists _); [reflexivity |].
    destruct (DB.caregiver_profiles d !! _); reflexivity.
Qed.







Lemma payout_of_cons (o : op) (os : list op) (t : TransactionLog.t) :
  payout_of os t → payout_of (o :: os) t.
Proof.
  intros (Hd & Hdesc & pk & self & Hin & Hrest). split; [exact Hd |].
  split; [exact Hdesc |]. exists pk, self. split; [now right | exact Hrest].
Qed.

End Ledger.

(** X14. The operations of the core only append to the ledger: the
    entries there stay as they are, and each entry added is the credit of
    a payment among the operations, for the earnings of the instance the
    payment ran on; there are at most as many as payments. *)
Theorem ledger_append_only (PLATFORM_FEE_PERCENT : Decimal) (os : list op) (d : DB.t) :
  ∃ new,
    DB.transaction_logs (run_ops PLATFORM_FEE_PERCENT os d) = DB.transaction_logs d ++ new
    ∧ Forall (payout_of os) new
    ∧ (length new ≤ length (filter (λ o, is_mark_paid o = true) os))%nat.
Proof.
  revert d. induction os as [| o os IH]; intros d.
  { exists []. rewrite app_nil_r. repeat split; [constructor | reflexivity]. }
  change (run_ops PLATFORM_FEE_PERCENT (o :: os) d)
    with (run_ops PLATFORM_FEE_PERCENT os (run_op PLATFORM_FEE_PERCENT o d)).
  destruct (IH (run_op PLATFORM_FEE_PERCENT o d)) as (new & Hnew & Hall & Hlen).
  assert (Hall' : Forall (payout_of (o :: os)) new).
  { eapply Forall_impl; [exact Hall |]. intros t. apply payout_of_cons. }
  destruct (run_op_ledger PLATFORM_FEE_PERCENT o d) as [Hsame | (pk & self & c & -> & Hone)].
  - exists new. split; [now rewrite Hnew, Hsame |]. split; [exact Hall' |].
    rewrite filter_cons. destruct (decide _); cbn [length]; lia.
  - exists (payout_entry pk self c :: new). split.
    + rewrite Hnew, Hone, <- app_assoc. reflexivity.
    + split.
      * constructor; [| exact Hall'].
        split; [reflexivity |]. split; [reflexivity |].
        exists pk, self. split; [left | split; reflexivity].
      * rewrite filter_cons_True by reflexivity. cbn [length]. lia.
Qed.


(** X16. The guard of [mark_paid] reads the instance, not the row: of two
    instances of one booking loaded before it is paid, each pays. After
    the first call the row is paid, and the second call still succeeds
    and appends a second credit. *)
Theorem mark_paid_twice_loaded
    (pk : nat) (first second row : Booking.t) (c1 c2 : CaregiverProfile.t) (d : DB.t) :
  DB.bookings d !! pk = Some row →
  Booking.payment_status first ≠ "paid" →
  Booking.payment_status second ≠ "paid" →
  DB.caregiver_profiles d !! Booking.caregiver first = Some c1 →
  DB.caregiver_profiles d !! Booking.caregiver second = Some c2 →
  let r1 := run (mark_paid pk) first d in
  let r2 := run (mark_paid pk) second (db r1.2) in
  r1.1 = Ok ()
  ∧ Booking.payment_status <$> DB.bookings (db r1.2) !! pk = Some "paid"
  ∧ r2.1 = Ok ()
  ∧ DB.transaction_logs (db r2.2)
    = DB.transaction_logs d ++ [payout_entry pk first c1; payout_entry pk second c2].
Proof.
  intros Hrow H1 H2 Hc1 Hc2 r1 r2.
  pose proof (lookup_lt_Some _ _ _ Hrow) as Hlt.
  assert (Hr1 : r1 = (Ok (),
    World (Booking.set_payment_status Booking.PAYMENT_PAID first)
      (DB.set_transaction_logs (DB.transaction_logs d ++ [payout_entry pk first c1])
         (DB.set_bookings
            (<[pk := Booking.set_payment_status Booking.PAYMENT_PAID row]> (DB.bookings d))
            d))
      ((([] ++ [UPDATE TBooking]) ++ [SELECT TCaregiverProfile])
         ++ [INSERT TTransactionLog]))).
  { subst r1. unfold run. rewrite mark_paid_run; cbn [mem db log].
    rewrite decide_False by exact H1. cbn zeta. now rewrite Hrow, Hc1. }
  set (d1 := DB.set_transaction_logs _ _) in Hr1.
  assert (Hrow1 : DB.bookings d1 !! pk
                  = Some (Booking.set_payment_status Booking.PAYMENT_PAID row)).
  { subst d1. destruct d; cbn in *. now apply list_lookup_insert_eq. }
  assert (Hc2' : DB.caregiver_profiles d1 !! Booking.caregiver second = Some c2).
  { subst d1. destruct d; exact Hc2. }
  split; [now rewrite Hr1 |]. split; [rewrite Hr1; cbn [snd db]; now rewrite Hrow1 |].
  subst r2. rewrite Hr1. cbn [snd db]. unfold run.
  rewrite mark_paid_run; cbn [mem db log].
  rewrite decide_False by exact H2. cbn zeta. rewrite Hrow1, Hc2'. cbn [fst snd db].
  split; [reflexivity |]. subst d1. destruct d; cbn. now rewrite <- app_assoc.
Qed.

(** ** Pets *)

Section Pets.

(** A profile found by its primary key is stored, and has that key. *)
Lemma OwnerProfile_by_pk_Some (d : DB.t) (pk : Z) (o : OwnerProfile.t) :
  OwnerProfile_by_pk d pk = Some o →
  OwnerProfile.id o = pk ∧ ∃ u, DB.owner_profiles d !! u = Some o.
Proof.
  unfold OwnerProfile_by_pk. intros Hhead.
  assert (Hin : o ∈ filter (λ p, OwnerProfile.id p = pk)
                      (map_to_list (DB.owner_profiles d)).*2).
  { destruct (filter _ _) as [| x xs]; [discriminate |].
    injection Hhead as ->. left. }
  apply list_elem_of_filter in Hin as [Hid Hin]. split; [exact Hid |].
  apply list_elem_of_fmap in Hin as ([u o'] & -> & Hin).
  exists u. now apply elem_of_map_to_list.
Qed.

(** The pets a user lists are the pets the creation of a booking finds
    for that user. *)
Lemma listed_pet_spec (request : Request.t) (d : DB.t) (id : Z) (pet : Pet.t) :
  owner_keys_ok d →
  (id, pet) ∈ PetViewSet_get_queryset request d
  ↔ DB.pets d !! id = Some pet
    ∧ ∃ owner, DB.owner_profiles d !! Request.user request = Some owner
               ∧ Pet.owner pet = OwnerProfile.id owner.
Proof.
  intros Hkeys. unfold PetViewSet_get_queryset.
  rewrite list_elem_of_filter, elem_of_map_to_list. cbn [snd]. split.
  - intros [Huser Hpet]. split; [exact Hpet |].
    destruct (OwnerProfile_by_pk d (Pet.owner pet)) as [o |] eqn:Ho; [| discriminate].
    injection Huser as Huser.
    destruct (OwnerProfile_by_pk_Some _ _ _ Ho) as (Hid & u & Hu).
    destruct (Hkeys u o Hu) as [Hou _].
    exists o. split; [congruence | congruence].
  - intros (Hpet & owner & Howner & Hid). split; [| exact Hpet].
    destruct (Hkeys _ _ Howner) as [Hu Hpk].
    rewrite Hid, Hpk. cbn. now rewrite Hu.
Qed.

Lemma OwnerProfile_by_pk_set_pets (v : gmap Z Pet.t) (d : DB.t) (pk : Z) :
  OwnerProfile_by_pk (DB_set_pets v d) pk = OwnerProfile_by_pk d pk.
Proof. reflexivity. Qed.

End Pets.

(** X17. A booking can only be created for a pet that the pet list of
    the requesting user shows: for any other pet the request is rejected
    with a validation error and nothing is written. *)
Theorem booking_needs_listed_pet {S : Type}
    (PLATFORM_FEE_PERCENT : Decimal) (now : datetime) (request : Request.t)
    (attrs : BookingCreateSerializer.attrs) (w : world S) :
  owner_keys_ok (db w) →
  BookingCreateSerializer.pet_id attrs
    ∉ (PetViewSet_get_queryset request (db w)).*1 →
  let r := create_booking PLATFORM_FEE_PERCENT now (Request.user request) attrs w in
  is_validation_error r.1 ∧ db r.2 = db w.
Proof.
  intros Hkeys Hnot r.
  destruct (create_booking_cases PLATFORM_FEE_PERCENT now (Request.user request) attrs w)
    as [(msg & Hr & _ & Hdb & _) | (o & p & c & st & cs & Hok & _)]; fold r in Hr || idtac.
  - fold r in Hdb. split; [exists msg; exact Hr | exact Hdb].
  - exfalso. apply Hnot. destruct Hok.
    apply list_elem_of_fmap. exists (BookingCreateSerializer.pet_id attrs, p).
    split; [reflexivity |]. apply listed_pet_spec; [exact Hkeys |]. eauto.
Qed.

(** X18. A user with an owner profile who adds a pet under a fresh key
    gets it in their own pet list and in no other user's; every list
    keeps the pets it had. A user without an owner profile gets the
    error of the missing profile, and nothing is written. *)
Theorem pet_created_is_listed {S : Type}
    (request : Request.t) (id : Z) (w : world S) :
  owner_keys_ok (db w) →
  DB.pets (db w) !! id = None →
  let r := PetViewSet_perform_create request id w in
  match DB.owner_profiles (db w) !! Request.user request with
  | None => r.1 = Raise (DoesNotExist "OwnerProfile") ∧ db r.2 = db w
  | Some owner =>
      let pet := Pet.mk (OwnerProfile.id owner) in
      r.1 = Ok (id, pet)
      ∧ owner_keys_ok (db r.2)
      ∧ ∀ other p,
          p ∈ PetViewSet_get_queryset other (db r.2)
          ↔ p ∈ PetViewSet_get_queryset other (db w)
            ∨ (p = (id, pet) ∧ Request.user other = Request.user request)
  end.
Proof.
  intros Hkeys Hfresh r. subst r.
  unfold PetViewSet_perform_create. destruct w as [s d l]. run_monad.
  cbn [db] in *.
  destruct (DB.owner_profiles d !! Request.user request) as [owner |] eqn:Howner;
    [| split; reflexivity].
  rewrite Hfresh. cbn [fst snd db].
  set (pet := Pet.mk (OwnerProfile.id owner)).
  set (d' := DB_set_pets (<[id := pet]> (DB.pets d)) d).
  assert (Hkeys' : owner_keys_ok d').
  { intros u o Ho. exact (Hkeys u o Ho). }
  split; [reflexivity |]. split; [exact Hkeys' |].
  intros other [k p]. rewrite (listed_pet_spec other d' k p Hkeys').
  rewrite (listed_pet_spec other d k p Hkeys).
  change (DB.pets d') with (<[id := pet]> (DB.pets d)).
  change (DB.owner_profiles d') with (DB.owner_profiles d).
  rewrite lookup_insert_Some. split.
  - intros [[[-> <-] | [Hne Hp]] (o & Ho & Hid)].
    + right. split; [reflexivity |].
      destruct (Hkeys _ _ Ho) as [Hou Hopk]. destruct (Hkeys _ _ Howner) as [Hu Hpk].
      cbn [Pet.owner pet] in Hid. rewrite Hid in Hpk. congruence.
    + left. eauto.
  - intros [[Hp (o & Ho & Hid)] | [Heq Hu]].
    + split; [| eauto]. right. split; [| exact Hp]. intros ->. congruence.
    + injection Heq as -> ->. split; [left; auto |].
      exists owner. split; [now rewrite Hu | reflexivity].
Qed.

(** ** From the creation of a booking to the actions on it *)

(** An owner sees a booking of theirs without [as=caregiver]. *)
Lemma visible_owner (request : Request.t) (d : DB.t) (pk : nat)
    (b : Booking.t) (x : Loaded.t) :
  Request.query_as request ≠ Some "caregiver" →
  Request.query_status request = None →
  DB.bookings d !! pk = Some b →
  select_related d pk b = Some x →
  OwnerProfile.user (Loaded.owner x) = Request.user request →
  visible request d pk = Some x.
Proof.
  intros Has Hst Hb Hx Hu. unfold visible. rewrite Hb; cbn. rewrite Hx; cbn.
  rewrite Hst. rewrite (bool_decide_eq_false_2 _ Has).
  rewrite (bool_decide_eq_true_2 _ Hu). reflexivity.
Qed.

(** What an action answers on a pending booking that the request sees
    and may act on. *)
Lemma action_on_pending {S : Type} (may : Loaded.t → Prop) `{∀ x, Decision (may x)}
    (target : string) (request : Request.t) (pk : nat) (w : world S) (x : Loaded.t) :
  visible request (db w) pk = Some x → may x →
  Booking.status (Loaded.row x) = "pending" →
  (action_outcome may target request pk w).1
  = if decide (target = "accepted" ∨ target = "rejected" ∨ target = "cancelled")
    then Ok (HTTP_200_OK target)
    else Raise (InvalidTransition "pending" target).
Proof.
  intros Hv Hmay Hst. unfold action_outcome. cbn zeta. rewrite Hv.
  rewrite decide_True by exact Hmay. rewrite Hst.
  destruct (decide (target = "accepted" ∨ target = "rejected" ∨ target = "cancelled"))
    as [Hyes | Hno].
  - rewrite decide_True; [reflexivity |]. apply allowed_transitions_table. left. auto.
  - rewrite decide_False; [reflexivity |]. rewrite allowed_transitions_table.
    intros [[_ Ht] | [Hp _]]; [exact (Hno Ht) | discriminate Hp].
Qed.


(** X19. A booking that has just been created can be acted on: its owner
    can cancel it, and the user of its caregiver, under [as=caregiver],
    can accept, reject or cancel it, each with answer 200, while
    completing it raises the invalid-transition error. *)
Theorem created_booking_actionable {S : Type}
    (PLATFORM_FEE_PERCENT : Decimal) (now : datetime) (user : Z)
    (attrs : BookingCreateSerializer.attrs) (w : world S)
    (pk : nat) (b : Booking.t) (c : CaregiverProfile.t)
    (as_owner as_caregiver : Request.t) :
  let r := create_booking PLATFORM_FEE_PERCENT now user attrs w in
  owner_keys_ok (db w) →
  r.1 = Ok (pk, b) →
  DB.caregiver_profiles (db w) !! BookingCreateSerializer.caregiver_id attrs = Some c →
  Request.user as_owner = user →
  Request.query_as as_owner ≠ Some "caregiver" →
  Request.query_status as_owner = None →
  Request.user as_caregiver = CaregiverProfile.user c →
  Request.query_as as_caregiver = Some "caregiver" →
  Request.query_status as_caregiver = None →
  (BookingViewSet_cancel as_owner pk r.2).1 = Ok (HTTP_200_OK "cancelled")
  ∧ (BookingViewSet_accept as_caregiver pk r.2).1 = Ok (HTTP_200_OK "accepted")
  ∧ (BookingViewSet_reject as_caregiver pk r.2).1 = Ok (HTTP_200_OK "rejected")
  ∧ (BookingViewSet_cancel as_caregiver pk r.2).1 = Ok (HTTP_200_OK "cancelled")
  ∧ (BookingViewSet_complete as_caregiver pk r.2).1
    = Raise (InvalidTransition "pending" "completed").
Proof.
  intros r Hkeys Hres Hc Hou Hoas Host Hcu Hcas Hcst.
  destruct (create_booking_cases PLATFORM_FEE_PERCENT now user attrs w)
    as [(msg & Hr & _) | (o & p & c' & st & cs & Hok & Hr & _ & Hdb)];
    fold r in Hr; [congruence |]. fold r in Hdb.
  rewrite Hr in Hres. injection Hres as <- <-.
  set (b := created_booking PLATFORM_FEE_PERCENT attrs o cs) in *.
  set (pk := length (DB.bookings (db w))) in *.
  destruct Hok as [Howner Hpet _ Hcare Hservice _ _ _ _ _].
  assert (c' = c) by congruence. subst c'.
  destruct (Hkeys _ _ Howner) as [Huser Hpk].
  set (x := Loaded.mk pk b o c).
  assert (Hb : DB.bookings (db r.2) !! pk = Some b).
  { rewrite Hdb. cbn [DB.bookings DB.set_bookings]. now apply list_lookup_middle. }
  assert (Hx : select_related (db r.2) pk b = Some x).
  { rewrite Hdb. unfold select_related.
    change (OwnerProfile_by_pk (DB.set_bookings _ (db w)) (Booking.owner b))
      with (OwnerProfile_by_pk (db w) (OwnerProfile.id o)).
    rewrite Hpk. cbn [mbind option_bind DB.caregiver_profiles DB.pets DB.service_types
                      DB.set_bookings].
    change (Booking.caregiver b) with (BookingCreateSerializer.caregiver_id attrs).
    change (Booking.pet b) with (BookingCreateSerializer.pet_id attrs).
    change (Booking.service_type b) with (BookingCreateSerializer.service_type_code attrs).
    rewrite Hcare, Hpet, Hservice. reflexivity. }
  assert (Hvo : visible as_owner (db r.2) pk = Some x).
  { apply (visible_owner as_owner _ pk b); try assumption. cbn. congruence. }
  assert (Hvc : visible as_caregiver (db r.2) pk = Some x).
  { apply (visible_caregiver as_caregiver _ pk b); try assumption. cbn. congruence. }
  assert (Hparty_o : is_party_of as_owner x) by (left; cbn; congruence).
  assert (Hparty_c : is_party_of as_caregiver x) by (right; cbn; congruence).
  assert (Hcare_c : is_caregiver_of as_caregiver x) by (unfold is_caregiver_of; cbn; congruence).
  rewrite !cancel_run, accept_run, reject_run, complete_run.
  rewrite (action_on_pending _ _ as_owner pk r.2 x Hvo Hparty_o eq_refl).
  rewrite (action_on_pending _ _ as_caregiver pk r.2 x Hvc Hparty_c eq_refl).
  rewrite !(action_on_pending _ _ as_caregiver pk r.2 x Hvc Hcare_c eq_refl).
  repeat split.
Qed.


(** ** The list of bookings *)

Lemma queryset_elem (d : DB.t) (x : Loaded.t) :
  x ∈ BookingViewSet_queryset d
  ↔ ∃ b, DB.bookings d !! Loaded.pk x = Some b ∧ select_related d (Loaded.pk x) b = Some x.
Proof.
  unfold BookingViewSet_queryset. rewrite list_elem_of_omap. split.
  - intros (o & Ho & Hx). cbn in Hx. subst o.
    apply elem_of_lookup_imap in Ho as (i & b & Hsel & Hb). symmetry in Hsel.
    destruct (select_related_pk _ _ _ _ Hsel) as (<- & _). eauto.
  - intros (b & Hb & Hsel). exists (Some x). split; [| reflexivity].
    apply elem_of_lookup_imap. exists (Loaded.pk x), b. auto.
Qed.

(** X21. The list of bookings shows a user only bookings that are stored
    and of which the user is the owner or, under [as=caregiver], the
    caregiver's user; with a status filter, only bookings of that status.
    Every stored booking whose four related rows exist is shown, without
    filter, to the user of its owner. *)
Theorem listed_bookings_are_own (request : Request.t) (d : DB.t) (x : Loaded.t) :
  (x ∈ BookingViewSet_get_queryset request d →
   DB.bookings d !! Loaded.pk x = Some (Loaded.row x)
   ∧ (if bool_decide (Request.query_as request = Some "caregiver")
      then CaregiverProfile.user (Loaded.caregiver x) = Request.user request
      else OwnerProfile.user (Loaded.owner x) = Request.user request)
   ∧ ∀ s, Request.query_status request = Some s → s ≠ "" →
       Booking.status (Loaded.row x) = s)
  ∧ (select_related d (Loaded.pk x) (Loaded.row x) = Some x →
     DB.bookings d !! Loaded.pk x = Some (Loaded.row x) →
     Request.query_as request = None → Request.query_status request = None →
     Request.user request = OwnerProfile.user (Loaded.owner x) →
     x ∈ BookingViewSet_get_queryset request d).
Proof.
  unfold BookingViewSet_get_queryset. split.
  - intros Hin.
    assert (Hbase : x ∈ BookingViewSet_queryset d
                    ∧ (if bool_decide (Request.query_as request = Some "caregiver")
                       then CaregiverProfile.user (Loaded.caregiver x) = Request.user request
                       else OwnerProfile.user (Loaded.owner x) = Request.user request)
                    ∧ ∀ s, Request.query_status request = Some s → s ≠ "" →
                        Booking.status (Loaded.row x) = s).
    { destruct (Request.query_status request) as [s |];
        [destruct (decide (s ≠ "")) as [Hs | Hs] |];
        destruct (bool_decide (Request.query_as request = Some "caregiver"));
        rewrite ?list_elem_of_filter in Hin;
        repeat match goal with H : _ ∧ _ |- _ => destruct H end;
        (split; [assumption |]); (split; [assumption |]);
        intros s' Hs' Hne; try discriminate Hs'; injection Hs' as <-;
        try assumption; contradiction. }
    destruct Hbase as (Hqs & Hparty & Hstatus).
    apply queryset_elem in Hqs as (b & Hb & Hsel).
    destruct (select_related_pk _ _ _ _ Hsel) as (_ & <- & _). auto.
  - intros Hsel Hb Has Hst Hu. rewrite Hst, Has.
    rewrite bool_decide_eq_false_2 by discriminate.
    apply list_elem_of_filter. split; [now symmetry |].
    apply queryset_elem. eauto.
Qed.

(** ** The properties of the views, the command and the ledger on the
    sample marketplace *)

Lemma caregiver_actions_reserved_witness :
  (BookingViewSet_accept SampleRequests.as_owner 0 (World () Sample.database [])).1
    = Ok HTTP_403_FORBIDDEN
  ∧ db (BookingViewSet_accept SampleRequests.as_owner 0 (World () Sample.database [])).2
    = Sample.database.
Proof.
  destruct (caregiver_actions_reserved SampleRequests.as_owner 0
              (World () Sample.database []) Sample.booking SampleRequests.caregiver
              eq_refl eq_refl ltac:(vm_compute; discriminate)
              (BookingViewSet_accept SampleRequests.as_owner 0 (World () Sample.database []))
              ltac:(left)) as [_ Hdb].
  split; [vm_compute; reflexivity | exact Hdb].
Defined.

Lemma cancel_never_forbidden_witness :
  (BookingViewSet_cancel SampleRequests.stranger 0 (World () Sample.database [])).1
    = Ok HTTP_404_NOT_FOUND
  ∧ db (BookingViewSet_cancel SampleRequests.stranger 0 (World () Sample.database [])).2
    = Sample.database.
Proof.
  destruct (cancel_never_forbidden SampleRequests.stranger 0 (World () Sample.database []))
    as [_ Hstranger].
  apply (Hstranger Sample.booking SampleRequests.owner SampleRequests.caregiver);
    try reflexivity; vm_compute; discriminate.
Defined.

Lemma actions_default_to_owner_witness :
  (BookingViewSet_accept SampleRequests.caregiver_plain 0 (World () Sample.database [])).1
    = Ok HTTP_404_NOT_FOUND
  ∧ (BookingViewSet_accept SampleRequests.as_caregiver 0 (World () Sample.database [])).1
    = Ok (HTTP_200_OK "accepted").
Proof.
  split; [| vm_compute; reflexivity].
  apply (actions_default_to_owner SampleRequests.caregiver_plain 0
           (World () Sample.database []) Sample.booking SampleRequests.owner
           ltac:(discriminate) eq_refl eq_refl ltac:(vm_compute; discriminate)).
  left.
Defined.

Lemma accept_then_complete_witness :
  let r1 := BookingViewSet_accept SampleRequests.as_caregiver 0 (World () Sample.database []) in
  let r2 := BookingViewSet_complete SampleRequests.as_caregiver 0 r1.2 in
  r2.1 = Ok (HTTP_200_OK "completed")
  ∧ DB.bookings (db r2.2) !! 0%nat = Some (Booking.set_status "completed" Sample.booking)
  ∧ (BookingViewSet_cancel SampleRequests.as_caregiver 0 r2.2).1
    = Raise (InvalidTransition "completed" "cancelled").
Proof.
  destruct (accept_then_complete SampleRequests.as_caregiver 0 (World () Sample.database [])
              Sample.booking
              (Loaded.mk 0 Sample.booking SampleRequests.owner SampleRequests.caregiver)
              eq_refl eq_refl eq_refl eq_refl eq_refl eq_refl)
    as (_ & _ & H2 & Hb2 & _).
  split; [exact H2 |]. split; [exact Hb2 |]. vm_compute. reflexivity.
Defined.


Lemma api_never_pays_witness :
  DB.transaction_logs (api_run Sample.fee SampleRequests.requests Sample.database) = []
  ∧ Forall (λ b, Booking.payment_status b = "pending")
      (DB.bookings (api_run Sample.fee SampleRequests.requests Sample.database)).
Proof.
  destruct (api_never_pays Sample.fee SampleRequests.requests Sample.database)
    as [Hledger Hpay].
  split; [exact Hledger |].
  apply Forall_lookup. intros i b' Hb'.
  destruct (Hpay i b' Hb') as [(b & Hb & ->) | [_ Hp]]; [| exact Hp].
  apply list_lookup_singleton_Some in Hb as [_ <-]. reflexivity.
Defined.

Lemma no_overlap_invariant_witness :
  no_overlap Sample.database
  ∧ no_overlap (api_run Sample.fee SampleRequests.requests Sample.database)
  ∧ length (DB.bookings (api_run Sample.fee SampleRequests.requests Sample.database))
    = 2%nat.
Proof.
  assert (H : no_overlap Sample.database).
  { intros i j bi bj Hne Hi Hj.
    apply list_lookup_singleton_Some in Hi as [-> _].
    apply list_lookup_singleton_Some in Hj as [-> _]. congruence. }
  split; [exact H |]. split.
  - exact (no_overlap_invariant Sample.fee SampleRequests.requests Sample.database H).
  - vm_compute. reflexivity.
Defined.

Lemma overlapping_request_rejected_witness :
  let r1 := create_booking Sample.fee Sample.now 1 Sample.request
              (World () Sample.database []) in
  let r2 := create_booking Sample.fee Sample.now 1 SampleRequests.request_overlapping r1.2 in
  (∃ pk b, r1.1 = Ok (pk, b))
  ∧ is_validation_error r2.1
  ∧ length (DB.bookings (db r2.2)) = 2%nat.
Proof.
  cbn zeta. split; [eexists _, _; vm_compute; reflexivity |].
  destruct (overlapping_request_rejected Sample.fee Sample.now Sample.now 1 1
              Sample.request SampleRequests.request_overlapping
              (World () Sample.database []) 1
              (created_booking Sample.fee Sample.request SampleRequests.owner
                 (CaregiverService.mk (Decimal.mk 3000 (-2)) true)))
    as [Hrej Hdb]; try reflexivity.
  split; [exact Hrej |]. rewrite Hdb. vm_compute. reflexivity.
Defined.

Lemma cancel_frees_slot_witness :
  (is_caregiver_available 7 (Sample.at_ Sample.monday 10) (Sample.at_ Sample.monday 11)
     (World () Sample.database [])).1 = Ok false
  ∧ (is_caregiver_available 7 (Sample.at_ Sample.monday 10) (Sample.at_ Sample.monday 11)
       (BookingViewSet_cancel SampleRequests.as_owner 0 (World () Sample.database [])).2).1
    = Ok true.
Proof.
  split; [vm_compute; reflexivity |].
  apply cancel_frees_slot.
  - vm_compute. reflexivity.
  - apply check_window_spec. vm_compute. reflexivity.
  - intros Hoff. apply check_time_off_spec in Hoff. vm_compute in Hoff. discriminate Hoff.
  - intros j bj Hj _ _ _ _. apply list_lookup_singleton_Some in Hj as [-> _]. reflexivity.
Defined.

Lemma availability_monotone_witness :
  (is_caregiver_available 7 (Sample.at_ Sample.monday 14) (Sample.at_ Sample.monday 15)
     (World () (DB.set_bookings [] Sample.database) [])).1 = Ok true.
Proof.
  apply (availability_monotone 7 (Sample.at_ Sample.monday 14) (Sample.at_ Sample.monday 15)
           (World () Sample.database [])).
  - intros a Ha. exact Ha.
  - intros o Ho. exact Ho.
  - intros b Hb. apply elem_of_nil in Hb as [].
  - vm_compute. reflexivity.
Defined.

Lemma reviews_stay_sound_witness :
  reviews_sound Sample.database
  ∧ reviews_sound (api_run Sample.fee SampleRequests.requests Sample.database)
  ∧ length (DB.reviews (api_run Sample.fee SampleRequests.requests Sample.database))
    = 1%nat.
Proof.
  assert (H : reviews_sound Sample.database).
  { split; [constructor |]. intros r Hr. apply elem_of_nil in Hr as []. }
  split; [exact H |]. split.
  - exact (reviews_stay_sound Sample.fee SampleRequests.requests Sample.database H).
  - vm_compute. reflexivity.
Defined.

Lemma platform_fee_monotone_witness :
  Decimal.leb (compute_commission Sample.fee (Decimal.mk 3000 (-2))).1
    (compute_commission Sample.fee (Decimal.mk 45 0)).1 = true
  ∧ Decimal.leb Decimal.zero (compute_commission Sample.fee (Decimal.mk 3000 (-2))).1 = true.
Proof.
  destruct (platform_fee_monotone Sample.fee (Decimal.mk 3000 (-2)) (Decimal.mk 45 0)
              eq_refl eq_refl) as [Hmono Hpos].
  split; [exact Hmono | exact (Hpos eq_refl)].
Defined.


Lemma mark_paid_twice_loaded_witness :
  DB.transaction_logs
    (db (run (mark_paid 0) Sample.booking
           (db (run (mark_paid 0) Sample.booking Sample.database).2)).2)
  = [payout_entry 0 Sample.booking SampleRequests.caregiver;
     payout_entry 0 Sample.booking SampleRequests.caregiver].
Proof.
  destruct (mark_paid_twice_loaded 0 Sample.booking Sample.booking Sample.booking
              SampleRequests.caregiver SampleRequests.caregiver Sample.database
              eq_refl ltac:(discriminate) ltac:(discriminate) eq_refl eq_refl)
    as (_ & _ & _ & Hledger).
  exact Hledger.
Defined.

Lemma sample_owner_keys_ok : owner_keys_ok Sample.database.
Proof.
  intros u o Ho. unfold Sample.database in Ho. cbn [DB.owner_profiles] in Ho.
  apply lookup_singleton_Some in Ho as [<- <-]. split; reflexivity.
Qed.

Lemma booking_needs_listed_pet_witness :
  is_validation_error
    (create_booking Sample.fee Sample.now 1 SamplePets.request_unknown_pet
       (World () Sample.database [])).1
  ∧ (PetViewSet_get_queryset SampleRequests.as_owner Sample.database).*1 = [5].
Proof.
  assert (Hlist : (PetViewSet_get_queryset SampleRequests.as_owner Sample.database).*1 = [5])
    by (vm_compute; reflexivity).
  split; [| exact Hlist].
  apply (booking_needs_listed_pet Sample.fee Sample.now SampleRequests.as_owner
           SamplePets.request_unknown_pet (World () Sample.database [])
           sample_owner_keys_ok).
  change (6 ∉ (PetViewSet_get_queryset SampleRequests.as_owner Sample.database).*1).
  rewrite Hlist. intros Hin. apply list_elem_of_singleton in Hin. discriminate Hin.
Defined.

Lemma pet_created_is_listed_witness :
  (6, Pet.mk 100)
    ∈ PetViewSet_get_queryset SampleRequests.as_owner
        (db (PetViewSet_perform_create SampleRequests.as_owner 6
               (World () Sample.database [])).2)
  ∧ (6, Pet.mk 100)
    ∉ PetViewSet_get_queryset SampleRequests.stranger
        (db (PetViewSet_perform_create SampleRequests.as_owner 6
               (World () Sample.database [])).2).
Proof.
  pose proof (pet_created_is_listed SampleRequests.as_owner 6 (World () Sample.database [])
                sample_owner_keys_ok eq_refl) as H.
  cbn zeta in H.
  change (DB.owner_profiles (db (World () Sample.database []))
            !! Request.user SampleRequests.as_owner)
    with (Some SampleRequests.owner) in H.
  destruct H as (_ & _ & Hlist). split.
  - apply Hlist. right. split; reflexivity.
  - intros Hin. apply Hlist in Hin as [Hin | [_ Hu]]; [| discriminate Hu].
    vm_compute in Hin. apply elem_of_nil in Hin as [].
Defined.

Lemma created_booking_actionable_witness :
  let r := create_booking Sample.fee Sample.now 1 Sample.request
             (World () Sample.database []) in
  (BookingViewSet_cancel SampleRequests.as_owner 1 r.2).1 = Ok (HTTP_200_OK "cancelled")
  ∧ (BookingViewSet_accept SampleRequests.as_caregiver 1 r.2).1
    = Ok (HTTP_200_OK "accepted").
Proof.
  cbn zeta.
  destruct (created_booking_actionable Sample.fee Sample.now 1 Sample.request
              (World () Sample.database []) 1
              (created_booking Sample.fee Sample.request SampleRequests.owner
                 (CaregiverService.mk (Decimal.mk 3000 (-2)) true))
              SampleRequests.caregiver SampleRequests.as_owner SampleRequests.as_caregiver
              sample_owner_keys_ok eq_refl eq_refl eq_refl ltac:(discriminate) eq_refl
              eq_refl eq_refl eq_refl) as (Hcancel & Haccept & _).
  split; [exact Hcancel | exact Haccept].
Defined.


Lemma listed_bookings_are_own_witness :
  Loaded.mk 0 Sample.booking SampleRequests.owner SampleRequests.caregiver
    ∈ BookingViewSet_get_queryset SampleRequests.as_owner Sample.database
  ∧ Loaded.mk 0 Sample.booking SampleRequests.owner SampleRequests.caregiver
    ∉ BookingViewSet_get_queryset SampleRequests.stranger Sample.database.
Proof.
  split.
  - apply (listed_bookings_are_own SampleRequests.as_owner Sample.database
             (Loaded.mk 0 Sample.booking SampleRequests.owner SampleRequests.caregiver));
      reflexivity.
  - intros Hin.
    apply (listed_bookings_are_own SampleRequests.stranger Sample.database) in Hin
      as (_ & Hown & _).
    vm_compute in Hown. discriminate Hown.
Defined.
